(** * gitpr: a shallow embedding of the forge layer (src/gitpr/forges.py)
    and of the configuration and security helpers (src/gitpr/main.py).

    Python strings are [string] where only ASCII matters; the secret store
    works on code points and bytes as [list Z]. Provider responses are
    records with the attributes the code reads; a Python exception is the
    [None] or [inl] branch of the result. *)

From Stdlib Require Import ZArith Lia Ascii String.
From stdpp Require Import base list gmap strings.

Open Scope string_scope.
Set Warnings "-register-all".

(* ------------------------------------------------------------------ *)
(** ** Provider objects and StandardPR (forges.py, lines 16-38) *)

(** The attributes of a PyGithub [PullRequest] read by [StandardPR];
    [gh_body] is [None] when the pull request has no body. *)
Record GitHubPull := mkGitHubPull {
  gh_number : Z;
  gh_title : string;
  gh_body : option string;
  gh_html_url : string;
  gh_state : string;
  gh_user_login : string;
  gh_merged : bool;
  gh_head_ref : string
}.

(** The attributes of a python-gitlab [ProjectMergeRequest] read by
    [StandardPR]; [gl_description] is [None] for a null description. *)
Record GitLabMR := mkGitLabMR {
  gl_iid : Z;
  gl_title : string;
  gl_description : option string;
  gl_web_url : string;
  gl_state : string;
  gl_author_username : string;
  gl_source_branch : string
}.

Inductive RawObj :=
  | RawGitHub (p : GitHubPull)
  | RawGitLab (m : GitLabMR).

Record StandardPR_t := mkStandardPR {
  pr_raw : RawObj;
  pr_source : string;
  pr_number : Z;
  pr_title : string;
  pr_body : option string;
  pr_url : string;
  pr_state : string;
  pr_author : string;
  pr_merged : bool;
  pr_head_ref : string
}.

(** [StandardPR(raw_obj, source)]. The branch is chosen by [source];
    reading an attribute the raw object does not have raises
    [AttributeError], the [None] result. *)
Definition StandardPR (raw_obj : RawObj) (source : string) : option StandardPR_t :=
  if String.eqb source "github" then
    match raw_obj with
    | RawGitHub p =>
        Some (mkStandardPR raw_obj source (gh_number p) (gh_title p) (gh_body p)
                (gh_html_url p) (gh_state p) (gh_user_login p) (gh_merged p)
                (gh_head_ref p))
    | RawGitLab _ => None
    end
  else (* gitlab *)
    match raw_obj with
    | RawGitLab m =>
        Some (mkStandardPR raw_obj source (gl_iid m) (gl_title m) (gl_description m)
                (gl_web_url m) (gl_state m) (gl_author_username m)
                (String.eqb (gl_state m) "merged") (gl_source_branch m))
    | RawGitHub _ => None
    end.

(** The optional body of a raw object, as the provider reports it. *)
Definition raw_body (raw_obj : RawObj) : option string :=
  match raw_obj with
  | RawGitHub p => gh_body p
  | RawGitLab m => gl_description m
  end.

(** The [source] string the forge classes pass with each kind of object. *)
Definition source_of (raw_obj : RawObj) : string :=
  match raw_obj with
  | RawGitHub _ => "github"
  | RawGitLab _ => "gitlab"
  end.

(* ------------------------------------------------------------------ *)
(** ** Listing merged branches (forges.py, lines 98-100 and 162-164) *)

(** The life-cycle state of a change request on the host. *)
Inductive cr_status := CROpen | CRClosed | CRMerged.

(** A change request as the host keeps it: only what the listings read. *)
Record HostCR := mkHostCR {
  hcr_number : Z;
  hcr_branch : string;
  hcr_status : cr_status
}.



(** [repo.get_pulls(state='closed')]: every pull request in that state, in
    the host's order (PyGithub's paginated list iterates all pages). *)
Definition github_get_pulls (state : string) (pulls : list GitHubPull) : list GitHubPull :=
  List.filter (fun p => String.eqb (gh_state p) state) pulls.



(** [GitHubForge.find_merged_branches]:
    [[p.head.ref for p in pulls if p.merged]]. *)
Definition github_find_merged_branches (pulls : list GitHubPull) : list string :=
  map gh_head_ref (List.filter gh_merged (github_get_pulls "closed" pulls)).


Definition is_merged (c : HostCR) : bool :=
  match hcr_status c with CRMerged => true | _ => false end.

(* ------------------------------------------------------------------ *)
(** ** Forge operations on a host (forges.py, lines 73-167) *)

(** Errors raised by the provider libraries. *)
Inductive Exn :=
  | NotFound (number : Z)
  | ApprovalRejected
  | ProviderError (msg : string).

(** A fallible step: [inl] is a raised exception. *)
Definition bindE {A B} (m : Exn + A) (k : A -> Exn + B) : Exn + B :=
  match m with inl e => inl e | inr a => k a end.
Notation "x <-? m ;; k" := (bindE m (fun x => k))
  (at level 100, m at next level, right associativity).

(** A change request on the host as the write operations see it. *)
Record Hosted := mkHosted {
  h_title : string;
  h_body : option string;
  h_approved : bool;
  h_comments : list string
}.

(** The change requests of one repository (GitHub) or project (GitLab),
    by number. *)
Abbreviation Store := (gmap Z Hosted).

(** [repo.get_pull(number)] and [project.mergerequests.get(number)]. *)
Definition get_cr (st : Store) (number : Z) : Exn + Hosted :=
  match st !! number with Some h => inr h | None => inl (NotFound number) end.

(** Python truthiness of an optional string argument ([if title:]). *)
Definition py_truthy (o : option string) : bool :=
  match o with Some s => negb (String.eqb s "") | None => false end.

(** A field update sent to the host: [(name, value)]. *)
Definition set_field (h : Hosted) (f : string * string) : Hosted :=
  let '(name, v) := f in
  if String.eqb name "title" then mkHosted v (h_body h) (h_approved h) (h_comments h)
  else if String.eqb name "body" then mkHosted (h_title h) (Some v) (h_approved h) (h_comments h)
  else if String.eqb name "description" then mkHosted (h_title h) (Some v) (h_approved h) (h_comments h)
  else h.

Definition apply_fields (h : Hosted) (fs : list (string * string)) : Hosted :=
  foldl set_field h fs.

(** [GitHubForge.edit_pr]: the keyword arguments built from the truthy
    fields, then [PullRequest.edit] with them, which sends only those. *)
Definition github_edit_kwargs (title body : option string) : list (string * string) :=
  (match title with Some t => if py_truthy title then [("title", t)] else [] | None => [] end) ++
  (match body with Some b => if py_truthy body then [("body", b)] else [] | None => [] end).

Definition github_edit_pr (st : Store) (number : Z) (title body : option string) : Exn + Store :=
  pr <-? get_cr st number ;;
  inr (<[number := apply_fields pr (github_edit_kwargs title body)]> st).

(** [GitLabForge.edit_pr]: each truthy field is assigned on the local
    object, which records it as updated; [mr.save()] sends the updated
    attributes (none: no request). *)
Definition gitlab_assign (updated : list (string * string)) (attr : string)
    (v : option string) : list (string * string) :=
  match v with Some s => if py_truthy v then updated ++ [(attr, s)] else updated | None => updated end.

Definition gitlab_save (st : Store) (number : Z) (mr : Hosted)
    (updated : list (string * string)) : Exn + Store :=
  match updated with
  | [] => inr st
  | _ => inr (<[number := apply_fields mr updated]> st)
  end.

Definition gitlab_edit_pr (st : Store) (number : Z) (title body : option string) : Exn + Store :=
  mr <-? get_cr st number ;;
  let updated := gitlab_assign (gitlab_assign [] "title" title) "description" body in
  gitlab_save st number mr updated.

(** [mr.notes.create({'body': text})] when the host accepts the note.
    GitLab also refuses a blank note; that refusal is not modelled, so
    results about a posted text are meaningful for non-blank texts. *)
Definition notes_create (st : Store) (number : Z) (text : string) : Exn + Store :=
  mr <-? get_cr st number ;;
  inr (<[number := mkHosted (h_title mr) (h_body mr) (h_approved mr) (h_comments mr ++ [text])]> st).

(** One behaviour of GitLab's approve endpoint, used in examples: it
    rejects a merge request the user has already approved. The endpoint
    also refuses users without approval rights; the results about
    [gitlab_submit_review] hold for any approve function. *)
Definition gitlab_approve (st : Store) (number : Z) : Exn + Store :=
  mr <-? get_cr st number ;;
  if h_approved mr then inl ApprovalRejected
  else inr (<[number := mkHosted (h_title mr) (h_body mr) true (h_comments mr)]> st).

Definition approved_prefix : string := "✅ Approved: ".
Definition changes_prefix : string := "⛔ Requesting Changes: ".

(** [GitLabForge.submit_review], for any behaviour [approve] of the
    approve endpoint. [try: mr.approve() except: pass] keeps the store the
    failed call left. *)
Definition gitlab_submit_review (approve : Store -> Z -> Exn + Store)
    (st : Store) (number : Z) (event body : string) : Exn + Store :=
  _ <-? get_cr st number ;;
  if String.eqb event "APPROVE" then
    let st1 := match approve st number with inl _ => st | inr st' => st' end in
    notes_create st1 number (approved_prefix ++ body)
  else
    let prefix := if String.eqb event "REQUEST_CHANGES" then changes_prefix else "" in
    notes_create st number (prefix ++ body).

(** The payload [GitHubForge.create_pr] sends:
    [create_pull(title=title, body=body, head=source, base=target, draft=draft)]. *)
Record GitHubCreatePull := mkGitHubCreatePull {
  ghc_title : string;
  ghc_body : string;
  ghc_head : string;
  ghc_base : string;
  ghc_draft : bool
}.

(** The payload [GitLabForge.create_pr] sends to [mergerequests.create]:
    GitLab has no draft field. *)
Record GitLabCreateMR := mkGitLabCreateMR {
  glc_source_branch : string;
  glc_target_branch : string;
  glc_title : string;
  glc_description : string
}.

Definition github_create_pr (title body source target : string) (draft : bool) : GitHubCreatePull :=
  mkGitHubCreatePull title body source target draft.

Definition gitlab_create_pr (title body source target : string) (draft : bool) : GitLabCreateMR :=
  let title := if draft then "Draft: " ++ title else title in
  mkGitLabCreateMR source target title body.

(* ------------------------------------------------------------------ *)
(** ** GitLabForge.__init__ (forges.py, lines 107-110) *)

(** Python's [s.startswith(p)]. *)
Fixpoint str_startswith (p s : string) : bool :=
  match p, s with
  | EmptyString, _ => true
  | String a p', String b s' => Ascii.eqb a b && str_startswith p' s'
  | String _ _, EmptyString => false
  end.

(** Python's [sub in s]. *)
Fixpoint str_contains (sub s : string) : bool :=
  str_startswith sub s ||
  match s with
  | EmptyString => false
  | String _ s' => str_contains sub s'
  end.

(** The URL handed to [gitlab.Gitlab(url=...)]. *)
Definition gitlab_client_url (base_url : string) : string :=
  if str_contains "api.github.com" base_url then "https://gitlab.com" else base_url.

(* ------------------------------------------------------------------ *)
(** ** get_current_repo_context (main.py, lines 86-97) *)

(** [[\w-]] on ASCII characters: letters, digits, [_] and [-]. Python's
    Unicode [\w] also accepts non-ASCII letters and digits, so the
    properties of the patterns below are stated for ASCII input. *)
Definition is_word (c : Ascii.ascii) : bool :=
  let n := Ascii.nat_of_ascii c in
  (Nat.leb 48 n && Nat.leb n 57) || (Nat.leb 65 n && Nat.leb n 90) ||
  (Nat.leb 97 n && Nat.leb n 122) || Nat.eqb n 95 || Nat.eqb n 45.

(** The ways [[\w-]+] can match at the head of [s], greediest first, each
    with the rest of the input: the backtracking order of the regex engine. *)
Fixpoint word_splits (s : string) : list (string * string) :=
  match s with
  | EmptyString => []
  | String c s' =>
      if is_word c
      then map (fun pr => (String c pr.1, pr.2)) (word_splits s') ++ [(String c EmptyString, s')]
      else []
  end.

(** Python's [$] without MULTILINE: the end, or just before a final newline. *)
Definition at_eol (s : string) : bool :=
  String.eqb s "" || String.eqb s (String "010"%char EmptyString).

(** [(?:\.git)?$]: the optional group is tried first. *)
Definition git_suffix_eol (s : string) : bool :=
  (str_startswith ".git" s && at_eol (String.substring 4 (String.length s - 4) s)) || at_eol s.

Fixpoint first_some {A B} (f : A -> option B) (l : list A) : option B :=
  match l with
  | [] => None
  | x :: l' => match f x with Some y => Some y | None => first_some f l' end
  end.

(** [[:/]([\w-]+)/([\w-]+)(?:\.git)?$] anchored at the head of [s]. *)
Definition match_at (s : string) : option (string * string) :=
  match s with
  | String c s' =>
      if Ascii.eqb c ":"%char || Ascii.eqb c "/"%char then
        first_some (fun g1r =>
          match g1r.2 with
          | String d r2 =>
              if Ascii.eqb d "/"%char then
                first_some (fun g2r =>
                  if git_suffix_eol g2r.2 then Some (g1r.1, g2r.1) else None)
                  (word_splits r2)
              else None
          | EmptyString => None
          end) (word_splits s')
      else None
  | EmptyString => None
  end.

(** [re.search]: the first start position where the pattern matches. *)
Fixpoint re_search (s : string) : option (string * string) :=
  match match_at s with
  | Some m => Some m
  | None => match s with EmptyString => None | String _ s' => re_search s' end
  end.

(** [get_current_repo_context], given [repo.remotes.origin.url]: [None]
    when there is no repository or no [origin] remote. *)
Definition get_current_repo_context (origin_url : option string) : option string :=
  match origin_url with
  | None => None
  | Some remote_url =>
      match re_search remote_url with
      | Some (g1, g2) => Some (g1 ++ "/" ++ g2)
      | None => None
      end
  end.

(* ------------------------------------------------------------------ *)
(** ** login (main.py, lines 101-140) *)

Inductive json :=
  | JNull
  | JString (s : string)
  | JObject (fields : list (string * json)).

Definition json_keys (j : json) : list string :=
  match j with JObject fs => map fst fs | _ => [] end.

Definition json_lookup (k : string) (j : json) : option json :=
  match j with
  | JObject fs => option_map snd (List.find (fun kv => String.eqb kv.1 k) fs)
  | _ => None
  end.

Definition login_base_url (is_enterprise : bool) (domain : string) : string :=
  if is_enterprise then "https://" ++ domain ++ "/api/v3" else "https://api.github.com".

Definition login_config_data (encrypted_token base_url : string)
    (slack_webhook : option string) : json :=
  JObject [("token", JString encrypted_token);
           ("base_url", JString base_url);
           ("slack_webhook", match slack_webhook with Some w => JString w | None => JNull end)].

(** The config file after [login]: [open(CONFIG_PATH, "w")] truncates it
    and [json.dump] writes [config_data]; [old] is what the file held. *)
Definition login (old : option json) (encrypt : string -> string)
    (is_enterprise : bool) (domain token : string) (slack_webhook : option string) : option json :=
  let base_url := login_base_url is_enterprise domain in
  let encrypted_token := encrypt token in
  Some (login_config_data encrypted_token base_url slack_webhook).

(* ------------------------------------------------------------------ *)
(** ** Secret store (main.py, lines 26-51) *)

Open Scope Z_scope.

(** A Python [str] is a sequence of code points in [0, 0x10FFFF]
    (lone surrogates included); a [bytes] value is a list of bytes. *)
Definition py_str_wf (s : list Z) : Prop := Forall (fun c => 0 <= c <= 0x10FFFF) s.

Definition is_surrogate (c : Z) : bool := (0xD800 <=? c) && (c <=? 0xDFFF).

(** A Unicode scalar value: what UTF-8 can encode. *)
Definition unicode_scalar (c : Z) : Prop := 0 <= c <= 0x10FFFF /\ is_surrogate c = false.

(** [str.encode()] for one code point, strict errors: a surrogate raises
    [UnicodeEncodeError] ([None]). [c >> 6] is written [c / 64] and
    [c & 0x3F] is written [c mod 64]. *)
Definition utf8_encode_char (c : Z) : option (list Z) :=
  if c <? 0x80 then Some [c]
  else if c <? 0x800 then Some [0xC0 + c / 64; 0x80 + c mod 64]
  else if c <? 0x10000 then
    if is_surrogate c then None
    else Some [0xE0 + c / 4096; 0x80 + (c / 64) mod 64; 0x80 + c mod 64]
  else if c <=? 0x10FFFF then
    Some [0xF0 + c / 262144; 0x80 + (c / 4096) mod 64; 0x80 + (c / 64) mod 64; 0x80 + c mod 64]
  else None.

Fixpoint utf8_encode (s : list Z) : option (list Z) :=
  match s with
  | [] => Some []
  | c :: s' =>
      match utf8_encode_char c, utf8_encode s' with
      | Some bs, Some rest => Some (bs ++ rest)%list
      | _, _ => None
      end
  end.

Definition is_cont (b : Z) : bool := (0x80 <=? b) && (b <? 0xC0).

(** [bytes.decode()], strict UTF-8: overlong forms, surrogates, values
    above 0x10FFFF and stray bytes raise [UnicodeDecodeError] ([None]). *)
Fixpoint utf8_decode (bs : list Z) : option (list Z) :=
  match bs with
  | [] => Some []
  | b0 :: r0 =>
      if (0 <=? b0) && (b0 <? 0x80) then option_map (cons b0) (utf8_decode r0)
      else if (0xC0 <=? b0) && (b0 <? 0xE0) then
        match r0 with
        | b1 :: r1 =>
            let v := (b0 - 0xC0) * 64 + (b1 - 0x80) in
            if is_cont b1 && (0x80 <=? v) then option_map (cons v) (utf8_decode r1) else None
        | [] => None
        end
      else if (0xE0 <=? b0) && (b0 <? 0xF0) then
        match r0 with
        | b1 :: b2 :: r2 =>
            let v := (b0 - 0xE0) * 4096 + (b1 - 0x80) * 64 + (b2 - 0x80) in
            if is_cont b1 && is_cont b2 && (0x800 <=? v) && negb (is_surrogate v)
            then option_map (cons v) (utf8_decode r2) else None
        | _ => None
        end
      else if (0xF0 <=? b0) && (b0 <? 0xF8) then
        match r0 with
        | b1 :: b2 :: b3 :: r3 =>
            let v := (b0 - 0xF0) * 262144 + (b1 - 0x80) * 4096 + (b2 - 0x80) * 64 + (b3 - 0x80) in
            if is_cont b1 && is_cont b2 && is_cont b3 && (0x10000 <=? v) && (v <=? 0x10FFFF)
            then option_map (cons v) (utf8_decode r3) else None
        | _ => None
        end
      else None
  end.

Definition is_byte (b : Z) : Prop := 0 <= b < 256.

(** The interface of [cryptography.fernet.Fernet] the code relies on:
    [encrypt] (with its random IV and current time) yields a URL-safe
    base64 token, ASCII bytes, and [decrypt] with the same key gives the
    message back; a bad token is [InvalidToken] ([None]). *)
Class Fernet := {
  fernet_key : Type;
  fernet_encrypt : fernet_key -> list Z -> Z -> list Z -> list Z;
  fernet_decrypt : fernet_key -> list Z -> option (list Z);
  fernet_decrypt_encrypt : forall k iv t m, Forall is_byte m ->
    fernet_decrypt k (fernet_encrypt k iv t m) = Some m;
  fernet_token_ascii : forall k iv t m, Forall is_byte m ->
    Forall (fun b => 0 <= b < 0x80) (fernet_encrypt k iv t m)
}.

Section SecretStore.
Context `{F : Fernet}.

(** [encrypt_token]: [f.encrypt(token.encode()).decode()], the key being
    the one [load_or_create_key] returns. *)
Definition encrypt_token (key : fernet_key) (iv : list Z) (now : Z) (token : list Z) : option (list Z) :=
  match utf8_encode token with
  | Some bs => utf8_decode (fernet_encrypt key iv now bs)
  | None => None
  end.

(** [decrypt_token]: [f.decrypt(encrypted_token.encode()).decode()]. *)
Definition decrypt_token (key : fernet_key) (encrypted_token : list Z) : option (list Z) :=
  match utf8_encode encrypted_token with
  | Some bs =>
      match fernet_decrypt key bs with
      | Some m => utf8_decode m
      | None => None
      end
  | None => None
  end.

(** [decrypt_token(encrypt_token(s))]: an exception in either call
    propagates. *)
Definition token_roundtrip (key : fernet_key) (iv : list Z) (now : Z) (s : list Z) : option (list Z) :=
  match encrypt_token key iv now s with
  | Some e => decrypt_token key e
  | None => None
  end.

End SecretStore.

(** A stand-in cipher meeting the [Fernet] interface, used to run the
    secret store on concrete inputs: each byte becomes two letters. *)
Fixpoint toy_unhex (l : list Z) : option (list Z) :=
  match l with
  | [] => Some []
  | x :: y :: r =>
      if (65 <=? x) && (x <? 81) && (65 <=? y) && (y <? 81)
      then option_map (cons ((x - 65) * 16 + (y - 65))) (toy_unhex r) else None
  | _ => None
  end.

Definition toy_hex (m : list Z) : list Z :=
  flat_map (fun b => [65 + b / 16; 65 + b mod 16]) m.

(* ------------------------------------------------------------------ *)
(** ** File diffs (forges.py, lines 8-14, 80-84 and 130-141) *)

Record FileDiff := mkFileDiff {
  fd_filename : string;
  fd_status : string;
  fd_additions : nat;
  fd_deletions : nat;
  fd_patch : option string
}.

(** The attributes of a PyGithub [File] read by [GitHubForge.get_files]. *)
Record GitHubFile := mkGitHubFile {
  ghf_filename : string;
  ghf_status : string;
  ghf_additions : nat;
  ghf_deletions : nat;
  ghf_patch : option string
}.

(** [GitHubForge.get_files], over [pull.get_files()]. *)
Definition github_get_files (files : list GitHubFile) : list FileDiff :=
  map (fun f => mkFileDiff (ghf_filename f) (ghf_status f) (ghf_additions f)
                           (ghf_deletions f) (ghf_patch f)) files.

(** One entry of [mr.changes()['changes']]; the code reads [new_path],
    [new_file] and [diff] only. *)
Record GitLabChange := mkGitLabChange {
  glch_new_path : string;
  glch_new_file : bool;
  glch_deleted_file : bool;
  glch_renamed_file : bool;
  glch_diff : string
}.

Fixpoint str_drop (n : nat) (s : string) : string :=
  match n, s with
  | O, _ => s
  | S n', String _ s' => str_drop n' s'
  | S _, EmptyString => EmptyString
  end.

(** The scan of [str.count]: leftmost match, then on after it. [fuel] is
    the length of the input. *)
Fixpoint str_count_scan (fuel : nat) (sub s : string) : nat :=
  match fuel with
  | O => O
  | S fuel' =>
      match s with
      | EmptyString => O
      | String _ s' =>
          if str_startswith sub s
          then S (str_count_scan fuel' sub (str_drop (String.length sub) s))
          else str_count_scan fuel' sub s'
      end
  end.

(** Python's [s.count(sub)]: non-overlapping occurrences; [len(s) + 1]
    for the empty [sub]. *)
Definition py_str_count (sub s : string) : nat :=
  if String.eqb sub "" then S (String.length s) else str_count_scan (String.length s) sub s.

Definition nl : Ascii.ascii := Ascii.ascii_of_nat 10.

(** One entry of [GitLabForge.get_files]. *)
Definition gitlab_file_diff (change : GitLabChange) : FileDiff :=
  let patch := glch_diff change in
  mkFileDiff (glch_new_path change)
    (if negb (glch_new_file change) then "modified" else "added")
    (py_str_count (String nl "+") patch) (py_str_count (String nl "-") patch)
    (Some patch).

Definition gitlab_get_files (changes : list GitLabChange) : list FileDiff :=
  map gitlab_file_diff changes.

(** Python's [s.split("\n")]. *)
Fixpoint py_split_newline (s : string) : list string :=
  match s with
  | EmptyString => [""]
  | String a s' =>
      if Ascii.eqb a nl then "" :: py_split_newline s'
      else match py_split_newline s' with
           | l :: ls => String a l :: ls
           | [] => [String a ""]
           end
  end.

(* ------------------------------------------------------------------ *)
(** ** Comments (forges.py, lines 92-93 and 149-150) *)

(** [GitHubForge.comment]: [pull.create_issue_comment(body)] when the
    host accepts the comment. GitHub also refuses a blank body; that
    refusal is not modelled. *)
Definition github_comment (st : Store) (number : Z) (body : string) : Exn + Store :=
  pr <-? get_cr st number ;;
  inr (<[number := mkHosted (h_title pr) (h_body pr) (h_approved pr) (h_comments pr ++ [body])]> st).

(** [GitLabForge.comment]: [mr.notes.create({'body': body})]. *)
Definition gitlab_comment (st : Store) (number : Z) (body : string) : Exn + Store :=
  notes_create st number body.

(* ------------------------------------------------------------------ *)
(** ** Character classes over a whole string *)

(** Every character of [s] satisfies [f]. *)
Fixpoint str_forall (f : Ascii.ascii -> bool) (s : string) : bool :=
  match s with
  | EmptyString => true
  | String c s' => f c && str_forall f s'
  end.

Definition not_slash (c : Ascii.ascii) : bool := negb (Ascii.eqb c "/"%char).

(** An ASCII character (code below 128). On a string of those, Python's
    Unicode character classes ([\w], [\d], [str.isspace], [str.lower])
    coincide with their ASCII versions modelled here. *)
Definition ascii_char (c : Ascii.ascii) : bool := Nat.ltb (Ascii.nat_of_ascii c) 128.

(* ------------------------------------------------------------------ *)
(** ** The key file (main.py, lines 26-51) *)

(** The part of the file system [load_or_create_key] touches: whether
    the application directory exists and the bytes of [KEY_PATH], if the
    file exists. File permissions are not modelled. *)
Record KeyFS := mkKeyFS {
  key_dir_exists : bool;
  key_file : option (list Z)
}.

(** [load_or_create_key]; [generated] is what [Fernet.generate_key()]
    returns on this call. A missing file is created (with its directory)
    holding [generated], then the file is read back. *)
Definition load_or_create_key (generated : list Z) (fs : KeyFS) : KeyFS * list Z :=
  match key_file fs with
  | Some key => (fs, key)
  | None => (mkKeyFS true (Some generated), generated)
  end.

Section KeyFile.
Context `{F : Fernet}.
(** [Fernet(key)]: [None] when the bytes are not a valid key, where the
    constructor raises. *)
Variable fernet_of_bytes : list Z -> option fernet_key.

(** [encrypt_token(token)] of main.py: the key from the key file, then
    [Fernet(key).encrypt(token.encode()).decode()]. *)
Definition main_encrypt_token (generated : list Z) (fs : KeyFS) (iv : list Z) (now : Z)
    (token : list Z) : KeyFS * option (list Z) :=
  let '(fs1, key) := load_or_create_key generated fs in
  (fs1, match fernet_of_bytes key with
        | Some k => encrypt_token k iv now token
        | None => None
        end).

(** [decrypt_token(encrypted_token)] of main.py. *)
Definition main_decrypt_token (generated : list Z) (fs : KeyFS)
    (encrypted_token : list Z) : KeyFS * option (list Z) :=
  let '(fs1, key) := load_or_create_key generated fs in
  (fs1, match fernet_of_bytes key with
        | Some k => decrypt_token k encrypted_token
        | None => None
        end).

End KeyFile.

(* ------------------------------------------------------------------ *)
(** ** The cleanup command (main.py, lines 405-473) *)

(** [repo.get_pulls(state='closed', head=f"{owner}:{branch}")]: each pull
    request comes with the login of the owner of its head repository, and
    the [head] filter keeps those whose head label is [owner:branch]. *)
Definition cleanup_pulls (owner branch : string) (pulls : list (string * GitHubPull))
    : list GitHubPull :=
  github_get_pulls "closed"
    (map snd (List.filter (fun op => String.eqb op.1 owner && String.eqb (gh_head_ref op.2) branch) pulls)).

(** [for pr in pulls: if pr.merged: is_merged = True; break]. *)
Fixpoint any_merged (pulls : list GitHubPull) : bool :=
  match pulls with
  | [] => false
  | pr :: rest => if gh_merged pr then true else any_merged rest
  end.

Definition cleanup_is_merged (owner branch : string) (pulls : list (string * GitHubPull)) : bool :=
  any_merged (cleanup_pulls owner branch pulls).

(** The deleting calls [cleanup] makes: [repo.get_git_ref(ref).delete()]
    and [local_repo.git.branch(flag, branch)]. *)
Inductive CleanupCall :=
  | DeleteRemoteRef (ref : string)
  | LocalBranchDelete (flag branch : string).

(** [cleanup branch_name] once the repository is known: [None] is the
    exit when [repo.get_branch] raises; otherwise the calls made, given the
    answers to the two confirmations and [in_heads], the value of
    [branch_name in local_repo.heads] ([None] outside a git repository,
    where [Repo(".")] raises). GitPython's [IterableList] answers that test
    with a head of that name, and also with an attribute of the list of
    that name (such as "count"), so it is taken here as given. *)
Definition cleanup (branch_name : string) (remote_branches : list string) (owner : string)
    (pulls : list (string * GitHubPull)) (confirm_remote : bool)
    (in_heads : option bool) (confirm_local : bool) : option (list CleanupCall) :=
  if negb (existsb (String.eqb branch_name) remote_branches) then None
  else
    let is_merged := cleanup_is_merged owner branch_name pulls in
    Some ((if confirm_remote then [DeleteRemoteRef ("heads/" ++ branch_name)] else []) ++
          match in_heads with
          | None => []
          | Some found =>
              if found then
                if confirm_local
                then [LocalBranchDelete (if negb is_merged then "-D" else "-d") branch_name]
                else []
              else []
          end)%list.

(* ------------------------------------------------------------------ *)
(** ** Prompts of the review and comment commands (main.py, lines 249-402) *)

(** [str.isspace] on an ASCII character: tab to carriage return, the
    separators 0x1C to 0x1F and space. *)
Definition py_isspace (c : Ascii.ascii) : bool :=
  let n := Ascii.nat_of_ascii c in
  (Nat.leb 9 n && Nat.leb n 13) || (Nat.leb 28 n && Nat.leb n 31) || Nat.eqb n 32.

Fixpoint py_lstrip (s : string) : string :=
  match s with
  | EmptyString => EmptyString
  | String c s' => if py_isspace c then py_lstrip s' else s
  end.

Fixpoint str_rev (s : string) : string :=
  match s with
  | EmptyString => EmptyString
  | String c s' => str_rev s' ++ String c EmptyString
  end.

Definition py_rstrip (s : string) : string := str_rev (py_lstrip (str_rev s)).

(** [s.strip()]: leading and trailing whitespace removed. *)
Definition py_strip (s : string) : string := py_rstrip (py_lstrip s).

(** [str.lower] on ASCII text. *)
Definition py_lower_char (c : Ascii.ascii) : Ascii.ascii :=
  let n := Ascii.nat_of_ascii c in
  if Nat.leb 65 n && Nat.leb n 90 then Ascii.ascii_of_nat (n + 32) else c.

Fixpoint py_lower (s : string) : string :=
  match s with
  | EmptyString => EmptyString
  | String c s' => String (py_lower_char c) (py_lower s')
  end.

(** What [review] does after the decision prompt. *)
Inductive ReviewOutcome :=
  | ReviewSubmitted (event body : string)   (* [pr.create_review(event=..., body=...)] *)
  | ReviewAborted                           (* the empty-message branches *)
  | ReviewUnknownAction.

(** [review]: [answer] is the reply to the decision prompt and [msg] the
    reply to the message prompt that follows ("" for the approval prompt
    selects its default "LGTM!"). *)
Definition review_decide (answer msg : string) : ReviewOutcome :=
  let action := py_lower answer in
  if String.eqb action "approve" then
    ReviewSubmitted "APPROVE" (if String.eqb msg "" then "LGTM!" else msg)
  else if String.eqb action "request" then
    if negb (String.eqb (py_strip msg) "") then ReviewSubmitted "REQUEST_CHANGES" msg
    else ReviewAborted
  else if String.eqb action "comment" then
    if negb (String.eqb (py_strip msg) "") then ReviewSubmitted "COMMENT" msg
    else ReviewAborted
  else ReviewUnknownAction.

(** [comment pr_number] once the repository is known: the pull request
    is fetched, then [edited] is what [typer.edit] returns ([None] when the
    editor is closed without saving). [inr None] is the exit without a
    write, [inr (Some st')] the store after [pr.create_issue_comment]. *)
Definition main_comment (st : Store) (number : Z) (edited : option string)
    : Exn + option Store :=
  _ <-? get_cr st number ;;
  match edited with
  | None => inr None
  | Some body =>
      if String.eqb body "" || String.eqb (py_strip body) "" then inr None
      else st' <-? github_comment st number body ;; inr (Some st')
  end.

(* ------------------------------------------------------------------ *)
(** ** The token page shown by [login] (main.py, line 112) *)

(** [str.replace(old, new)] for a non-empty [old]: leftmost occurrence,
    then on after it. [fuel] is the length of the input. *)
Fixpoint py_replace_scan (fuel : nat) (old new s : string) : string :=
  match fuel with
  | O => s
  | S fuel' =>
      match s with
      | EmptyString => EmptyString
      | String c s' =>
          if str_startswith old s
          then new ++ py_replace_scan fuel' old new (str_drop (String.length old) s)
          else String c (py_replace_scan fuel' old new s')
      end
  end.

(** [new] after every character, for the empty [old]. *)
Fixpoint py_replace_empty (new s : string) : string :=
  match s with
  | EmptyString => EmptyString
  | String c s' => String c (new ++ py_replace_empty new s')
  end.

Definition py_replace (old new s : string) : string :=
  if String.eqb old "" then new ++ py_replace_empty new s
  else py_replace_scan (String.length s) old new s.

(** [f"{base_url.replace('/api/v3', '')}/settings/tokens"]. *)
Definition login_token_page (base_url : string) : string :=
  py_replace "/api/v3" "" base_url ++ "/settings/tokens".

(* ------------------------------------------------------------------ *)
(** ** The Slack notification of [create] (main.py, lines 206-211) *)

(** Python truthiness of a JSON value read from the config. *)
Definition py_json_truthy (j : json) : bool :=
  match j with
  | JNull => false
  | JString s => negb (String.eqb s "")
  | JObject fs => match fs with [] => false | _ => true end
  end.

(** The [text] of the payload. *)
Definition create_slack_text (repo_arg title html_url : string) : string :=
  "🚀 *New PR* in `" ++ repo_arg ++ "`" ++
  String nl ("*Title:* " ++ title ++ String nl ("*Link:* " ++ html_url)).

(** [if config.get("slack_webhook"): requests.post(config["slack_webhook"],
    json=payload, ...)]: the webhook posted to and the text, or [None] when
    nothing is posted. *)
Definition create_slack_post (config : json) (repo_arg title html_url : string)
    : option (json * string) :=
  match json_lookup "slack_webhook" config with
  | Some w => if py_json_truthy w then Some (w, create_slack_text repo_arg title html_url) else None
  | None => None
  end.

(* ------------------------------------------------------------------ *)
(** ** Linking an issue in [create] (main.py, lines 194-204) *)

(** [\d] on an ASCII character. *)
Definition is_digit (c : Ascii.ascii) : bool :=
  let n := Ascii.nat_of_ascii c in Nat.leb 48 n && Nat.leb n 57.

(** The ways [\d+] can match at the head of [s], greediest first. *)
Fixpoint digit_splits (s : string) : list (string * string) :=
  match s with
  | EmptyString => []
  | String c s' =>
      if is_digit c
      then map (fun pr => (String c pr.1, pr.2)) (digit_splits s') ++ [(String c EmptyString, s')]
      else []
  end.

(** [/([\w-]+)/([\w-]+)/issues/(\d+)] anchored at the head of [s]. *)
Definition match_issue_at (s : string) : option (string * string * string) :=
  match s with
  | String c s' =>
      if Ascii.eqb c "/"%char then
        first_some (fun g1r =>
          match g1r.2 with
          | String d r2 =>
              if Ascii.eqb d "/"%char then
                first_some (fun g2r =>
                  if str_startswith "/issues/" g2r.2 then
                    first_some (fun g3r => Some (g1r.1, g2r.1, g3r.1))
                      (digit_splits (str_drop 8 g2r.2))
                  else None)
                  (word_splits r2)
              else None
          | EmptyString => None
          end) (word_splits s')
      else None
  | EmptyString => None
  end.

(** [re.search] of that pattern. *)
Fixpoint re_search_issue (s : string) : option (string * string * string) :=
  match match_issue_at s with
  | Some m => Some m
  | None => match s with EmptyString => None | String _ s' => re_search_issue s' end
  end.

(** [int] of a run of ASCII digits. *)
Fixpoint py_int_digits (acc : Z) (s : string) : Z :=
  match s with
  | EmptyString => acc
  | String c s' => py_int_digits (acc * 10 + (Z.of_nat (Ascii.nat_of_ascii c) - 48)) s'
  end.

(** The issue linking of [create]: from the issue URL, the repository
    ["org/repo"] passed to [g.get_repo], the number passed to
    [get_issue] and the comment posted; [None] when the URL does not
    match and nothing is posted. *)
Definition create_issue_link (issue_url html_url : string) : option (string * Z * string) :=
  match re_search_issue issue_url with
  | Some (tgt_org, tgt_repo_name, tgt_issue_num) =>
      Some (tgt_org ++ "/" ++ tgt_repo_name, py_int_digits 0 tgt_issue_num, "PR Created: " ++ html_url)
  | None => None
  end.

(* ================================================================== *)
(** * Proofs *)

(** ** Helper lemmas: the secret store *)

(** [lia] after turning divisions and remainders by constants into
    equations. *)
Ltac zlia := Z.div_mod_to_equations; lia.

Lemma toy_unhex_hex m : Forall is_byte m -> toy_unhex (toy_hex m) = Some m.
Proof.
  induction 1 as [|b m Hb _ IH]; [reflexivity|].
  unfold is_byte in Hb. cbn [toy_hex flat_map app toy_unhex] in *.
  fold (toy_hex m). rewrite IH.
  replace ((65 <=? 65 + b / 16) && (65 + b / 16 <? 81) && (65 <=? 65 + b mod 16)
           && (65 + b mod 16 <? 81)) with true.
  - cbn. f_equal. f_equal. zlia.
  - symmetry. repeat rewrite andb_true_iff. rewrite !Z.leb_le, !Z.ltb_lt. zlia.
Qed.

Lemma toy_hex_ascii m : Forall is_byte m -> Forall (fun b => 0 <= b < 0x80) (toy_hex m).
Proof.
  induction 1 as [|b m Hb _ IH]; [constructor|].
  unfold is_byte in Hb. cbn [toy_hex flat_map app]. fold (toy_hex m).
  repeat constructor; auto; zlia.
Qed.

#[export] Instance toy_fernet : Fernet := {
  fernet_key := unit;
  fernet_encrypt := fun _ _ _ m => toy_hex m;
  fernet_decrypt := fun _ l => toy_unhex l;
  fernet_decrypt_encrypt := fun _ _ _ m Hm => toy_unhex_hex m Hm;
  fernet_token_ascii := fun _ _ _ m Hm => toy_hex_ascii m Hm
}.

(** Settles every [Z.ltb]/[Z.leb] test of the goal by case analysis,
    closing the branches the arithmetic rules out. *)
Ltac ztests :=
  repeat match goal with
  | |- context [Z.ltb ?a ?b] => destruct (Z.ltb_spec a b); cbn [andb negb]; try (exfalso; zlia)
  | |- context [Z.leb ?a ?b] => destruct (Z.leb_spec a b); cbn [andb negb]; try (exfalso; zlia)
  end.

Lemma utf8_encode_char_decode c rest :
  unicode_scalar c ->
  exists bs, utf8_encode_char c = Some bs /\ Forall is_byte bs /\
    utf8_decode (bs ++ rest) = option_map (cons c) (utf8_decode rest).
Proof.
  unfold unicode_scalar, is_byte. intros [Hc Hs].
  assert (Hs' : c < 0xD800 \/ 0xDFFF < c).
  { unfold is_surrogate in Hs. apply andb_false_iff in Hs.
    rewrite Z.leb_gt, Z.leb_gt in Hs. lia. }
  unfold utf8_encode_char.
  destruct (Z.ltb_spec c 0x80).
  { eexists; split; [reflexivity|]. split; [repeat constructor; lia|].
    cbn [app utf8_decode]. ztests. reflexivity. }
  destruct (Z.ltb_spec c 0x800).
  { eexists; split; [reflexivity|]. split; [repeat constructor; zlia|].
    cbn [app utf8_decode]. unfold is_cont. ztests.
    do 2 f_equal. zlia. }
  destruct (Z.ltb_spec c 0x10000).
  { rewrite Hs. eexists; split; [reflexivity|]. split; [repeat constructor; zlia|].
    cbn [app utf8_decode]. unfold is_cont, is_surrogate. ztests.
    all: do 2 f_equal; zlia. }
  destruct (Z.leb_spec c 0x10FFFF); [|lia].
  eexists; split; [reflexivity|]. split; [repeat constructor; zlia|].
  cbn [app utf8_decode]. unfold is_cont. ztests.
  all: do 2 f_equal; zlia.
Qed.

Lemma utf8_encode_decode s :
  Forall unicode_scalar s ->
  exists bs, utf8_encode s = Some bs /\ Forall is_byte bs /\ utf8_decode bs = Some s.
Proof.
  induction 1 as [|c s Hc _ IH]; [exists []; repeat constructor|].
  destruct IH as (rest & Henc & Hbytes & Hdec).
  destruct (utf8_encode_char_decode c rest Hc) as (bs & Hbs & Hbb & Hd).
  exists (bs ++ rest)%list. cbn [utf8_encode]. rewrite Hbs, Henc.
  split; [reflexivity|]. split; [apply Forall_app; auto|].
  rewrite Hd, Hdec. reflexivity.
Qed.

Lemma utf8_ascii_decode l : Forall (fun b => 0 <= b < 0x80) l -> utf8_decode l = Some l.
Proof.
  induction 1 as [|b l Hb _ IH]; [reflexivity|].
  cbn [utf8_decode]. ztests. rewrite IH. reflexivity.
Qed.

Lemma utf8_ascii_encode l : Forall (fun b => 0 <= b < 0x80) l -> utf8_encode l = Some l.
Proof.
  induction 1 as [|b l Hb _ IH]; [reflexivity|].
  cbn [utf8_encode]. rewrite IH. unfold utf8_encode_char. ztests. reflexivity.
Qed.

Lemma utf8_encode_surrogate c s : is_surrogate c = true -> utf8_encode (c :: s) = None.
Proof.
  unfold is_surrogate. intros H. apply andb_true_iff in H.
  rewrite Z.leb_le, Z.leb_le in H.
  cbn [utf8_encode]. unfold utf8_encode_char, is_surrogate.
  ztests. reflexivity.
Qed.

Lemma utf8_encode_exists_surrogate s :
  Exists (fun c => is_surrogate c = true) s -> utf8_encode s = None.
Proof.
  induction 1 as [c s Hc|c s _ IH].
  - now apply utf8_encode_surrogate.
  - cbn [utf8_encode]. rewrite IH. now destruct (utf8_encode_char c).
Qed.

(* ------------------------------------------------------------------ *)
(** ** C7: the token round trip *)

(** C7 (amended). With one key, [decrypt_token(encrypt_token(s))] returns
    [s] for every string of Unicode scalar values (the empty string and
    multibyte characters included); a string holding a lone surrogate
    makes [encrypt_token] raise, since [str.encode()] is strict. *)
Theorem token_roundtrip_scalars `{F : Fernet} (key : fernet_key) (iv : list Z) (now : Z)
    (s : list Z) :
  (Forall unicode_scalar s -> token_roundtrip key iv now s = Some s) /\
  (Exists (fun c => is_surrogate c = true) s -> encrypt_token key iv now s = None).
Proof.
  split.
  - intros Hs. destruct (utf8_encode_decode s Hs) as (bs & Henc & Hbytes & Hdec).
    unfold token_roundtrip, encrypt_token, decrypt_token. rewrite Henc.
    pose proof (fernet_token_ascii key iv now bs Hbytes) as Hascii.
    rewrite (utf8_ascii_decode _ Hascii), (utf8_ascii_encode _ Hascii).
    rewrite (fernet_decrypt_encrypt key iv now bs Hbytes). exact Hdec.
  - intros Hs. unfold encrypt_token. now rewrite (utf8_encode_exists_surrogate s Hs).
Qed.

(** "A€😀" and the empty string go through the round trip. *)
Lemma token_roundtrip_scalars_witness :
  Forall unicode_scalar [0x41; 0x20AC; 0x1F600] /\
  token_roundtrip (F := toy_fernet) tt [] 0 [0x41; 0x20AC; 0x1F600] = Some [0x41; 0x20AC; 0x1F600] /\
  token_roundtrip (F := toy_fernet) tt [] 0 [] = Some [].
Proof.
  assert (H : Forall unicode_scalar [0x41; 0x20AC; 0x1F600])
    by (repeat constructor; vm_compute; congruence).
  split; [exact H|]. split.
  - exact (proj1 (token_roundtrip_scalars (F := toy_fernet) tt [] 0 _) H).
  - exact (proj1 (token_roundtrip_scalars (F := toy_fernet) tt [] 0 []) ltac:(constructor)).
Defined.

(** C7 fails as stated: the one-code-point string U+D800 is a Python
    [str], yet [encrypt_token] raises on it. *)
Lemma token_roundtrip_counterexample :
  ~ (forall (F : Fernet) (key : fernet_key) (iv : list Z) (now : Z) (s : list Z),
       py_str_wf s -> token_roundtrip key iv now s = Some s).
Proof.
  intros H. specialize (H toy_fernet tt [] 0 [0xD800]).
  assert (Hwf : py_str_wf [0xD800]) by (repeat constructor; lia).
  specialize (H Hwf). vm_compute in H. discriminate H.
Qed.

(* ------------------------------------------------------------------ *)
(** ** C1: merged flag and state after normalization *)

(** C1 (amended). A GitLab merge request normalizes with [merged] true
    exactly when its state is "merged"; a GitHub pull request keeps the
    provider's state string and [merged] flag unchanged, so a merged pull
    request (state "closed" on GitHub) has [merged] true and state
    "closed". *)
Theorem StandardPR_merged_state (raw_obj : RawObj) (source : string) (pr : StandardPR_t) :
  StandardPR raw_obj source = Some pr ->
  match raw_obj with
  | RawGitHub p => pr_state pr = gh_state p /\ pr_merged pr = gh_merged p
  | RawGitLab m => (pr_merged pr = true <-> pr_state pr = "merged")
  end.
Proof.
  unfold StandardPR. destruct (String.eqb source "github"), raw_obj as [p|m];
    intros H; try discriminate H; injection H as <-; cbn.
  - split; reflexivity.
  - rewrite String.eqb_eq. reflexivity.
Qed.

Lemma StandardPR_merged_state_witness :
  let gl := mkGitLabMR 3 "Fix" None "https://gitlab.com/acme/widgets/-/merge_requests/3"
              "merged" "bob" "fix/typo" in
  let gh := mkGitHubPull 7 "Add widgets" None "https://github.com/acme/widgets/pull/7"
              "closed" "alice" true "feature/widgets" in
  exists pr1 pr2,
    StandardPR (RawGitLab gl) "gitlab" = Some pr1 /\ (pr_merged pr1 = true <-> pr_state pr1 = "merged") /\
    StandardPR (RawGitHub gh) "github" = Some pr2 /\ pr_state pr2 = "closed" /\ pr_merged pr2 = true.
Proof.
  intros gl gh.
  eexists; eexists. split; [reflexivity|].
  split; [exact (StandardPR_merged_state (RawGitLab gl) "gitlab" _ eq_refl)|].
  split; [reflexivity|].
  exact (StandardPR_merged_state (RawGitHub gh) "github" _ eq_refl).
Defined.

(** C1 fails as stated: the merged GitHub pull request below (state
    "closed", [merged] true, as GitHub reports it) normalizes to a record
    whose [merged] is true and whose state is "closed". *)
Lemma StandardPR_merged_state_counterexample :
  ~ (forall (raw_obj : RawObj) (source : string) (pr : StandardPR_t),
       StandardPR raw_obj source = Some pr -> pr_merged pr = true -> pr_state pr = "merged").
Proof.
  intros H.
  specialize (H (RawGitHub (mkGitHubPull 7 "Add widgets" None
                 "https://github.com/acme/widgets/pull/7" "closed" "alice" true "feature/widgets"))
                "github" _ eq_refl eq_refl).
  discriminate H.
Qed.

(* ------------------------------------------------------------------ *)
(** ** C8: a missing body *)

(** C8 (amended). Normalizing a raw object with the [source] its forge
    class passes never fails, and the body is copied as the provider
    reports it: a null body stays [None], it is not turned into "". *)
Theorem StandardPR_body_copied (raw_obj : RawObj) :
  exists pr, StandardPR raw_obj (source_of raw_obj) = Some pr /\ pr_body pr = raw_body raw_obj.
Proof. destruct raw_obj as [p|m]; eexists; split; reflexivity. Qed.

(** C8 fails as stated: a GitHub pull request without a body normalizes
    to a body of [None], not the empty string. *)
Lemma StandardPR_body_counterexample :
  ~ (forall raw_obj : RawObj, raw_body raw_obj = None ->
       exists pr, StandardPR raw_obj (source_of raw_obj) = Some pr /\ pr_body pr = Some "").
Proof.
  intros H.
  destruct (H (RawGitHub (mkGitHubPull 7 "Add widgets" None
                "https://github.com/acme/widgets/pull/7" "open" "alice" false "feature/widgets"))
              eq_refl) as (pr & Hpr & Hbody).
  injection Hpr as <-. discriminate Hbody.
Qed.

(* ------------------------------------------------------------------ *)
(** ** C2: merged source branches *)







(* ------------------------------------------------------------------ *)
(** ** C3: approval degrades to a comment on GitLab *)

(** C3. On GitLab, [submit_review(n, "APPROVE", b)] on an existing merge
    request whose approve call fails (whatever the failure) still posts
    the comment "✅ Approved: " followed by [b], which contains [b], and
    returns normally with no other change to the project. *)
Theorem gitlab_submit_review_approve_fails (approve : Store -> Z -> Exn + Store)
    (st : Store) (number : Z) (body : string) (mr : Hosted) (e : Exn) :
  st !! number = Some mr ->
  approve st number = inl e ->
  gitlab_submit_review approve st number "APPROVE" body =
    inr (<[number := mkHosted (h_title mr) (h_body mr) (h_approved mr)
                       (h_comments mr ++ [approved_prefix ++ body])]> st) /\
  (exists pre, approved_prefix ++ body = pre ++ body).
Proof.
  intros Hmr Happ. split; [|exists approved_prefix; reflexivity].
  unfold gitlab_submit_review, get_cr, bindE. rewrite Hmr. cbn.
  rewrite Happ. unfold notes_create, get_cr, bindE. rewrite Hmr. reflexivity.
Qed.

(** The scenario of the spec: merge request 5 is already approved, GitLab
    rejects the approval, and "lgtm" is still posted. *)
Lemma gitlab_submit_review_approve_fails_witness :
  let mr := mkHosted "Add widgets" None true [] in
  let st : Store := {[ 5 := mr ]} in
  gitlab_approve st 5 = inl ApprovalRejected /\
  gitlab_submit_review gitlab_approve st 5 "APPROVE" "lgtm" =
    inr {[ 5 := mkHosted "Add widgets" None true [approved_prefix ++ "lgtm"] ]} /\
  (exists pre, approved_prefix ++ "lgtm" = pre ++ "lgtm").
Proof.
  intros mr st.
  assert (Happ : gitlab_approve st 5 = inl ApprovalRejected) by reflexivity.
  split; [exact Happ|].
  destruct (gitlab_submit_review_approve_fails gitlab_approve st 5 "lgtm" mr ApprovalRejected
              eq_refl Happ) as [Hrev Hsub].
  split; [|exact Hsub].
  rewrite Hrev. unfold st. rewrite insert_singleton. reflexivity.
Defined.

(* ------------------------------------------------------------------ *)
(** ** C4: drafts *)

(** C4. GitLab's [create_pr] sends the title "Draft: " ++ [t] for a draft
    and [t] otherwise; GitHub's sends [t] unchanged and passes the draft
    flag through. *)
Theorem create_pr_draft (title body source target : string) (draft : bool) :
  glc_title (gitlab_create_pr title body source target draft) =
    (if draft then "Draft: " ++ title else title) /\
  ghc_title (github_create_pr title body source target draft) = title /\
  ghc_draft (github_create_pr title body source target draft) = draft.
Proof. split; [|split]; reflexivity. Qed.

(* ------------------------------------------------------------------ *)
(** ** C5: SSH and HTTPS remotes *)

(** C5. The SSH remote "git@host:acme/widgets.git" and the HTTPS remote
    "https://host/acme/widgets.git" both match with owner "acme" and
    name "widgets" (".git" dropped), and both give the context
    "acme/widgets". *)
Theorem get_current_repo_context_ssh_https :
  re_search "git@host:acme/widgets.git" = Some ("acme", "widgets") /\
  re_search "https://host/acme/widgets.git" = Some ("acme", "widgets") /\
  get_current_repo_context (Some "git@host:acme/widgets.git") = Some "acme/widgets" /\
  get_current_repo_context (Some "https://host/acme/widgets.git") = Some "acme/widgets".
Proof. vm_compute. repeat split. Qed.

(* ------------------------------------------------------------------ *)
(** ** C6: the configuration file written by login *)

(** C6 (amended). [login] writes one flat JSON object with the keys
    "token" (the encrypted token), "base_url" and "slack_webhook" (null
    when no webhook is set), in that order, and it replaces the whole
    file: what was stored before has no effect on what is written. *)
Theorem login_writes_flat_config (old : option json) (encrypt : string -> string)
    (is_enterprise : bool) (domain token : string) (slack_webhook : option string) :
  exists j,
    login old encrypt is_enterprise domain token slack_webhook = Some j /\
    j = login_config_data (encrypt token) (login_base_url is_enterprise domain) slack_webhook /\
    json_keys j = ["token"; "base_url"; "slack_webhook"] /\
    json_lookup "token" j = Some (JString (encrypt token)) /\
    json_lookup "base_url" j = Some (JString (login_base_url is_enterprise domain)) /\
    (forall old', login old' encrypt is_enterprise domain token slack_webhook = Some j).
Proof.
  eexists. split; [reflexivity|]. split; [reflexivity|].
  split; [reflexivity|]. split; [reflexivity|]. split; [reflexivity|].
  intros old'. reflexivity.
Qed.

(** C6 fails as stated: with a GitLab configuration already stored,
    running [login] leaves no "gitlab" entry, and the top-level key
    "token" maps to a string, not to a per-provider object. *)
Lemma login_config_counterexample :
  let old := JObject [("gitlab", JObject [("encryptedToken", JString "gAAAA-gl");
                                          ("baseURL", JString "https://gitlab.com")])] in
  ~ (exists j, login (Some old) (fun t => "gAAAA-" ++ t) false "" "ghp_x" None = Some j /\
               json_lookup "gitlab" j = json_lookup "gitlab" old) /\
  json_lookup "token" (login_config_data ("gAAAA-" ++ "ghp_x") "https://api.github.com" None) =
    Some (JString "gAAAA-ghp_x").
Proof.
  intros old. split; [|reflexivity].
  intros (j & Hj & Hgl). injection Hj as <-. discriminate Hgl.
Qed.

(* ------------------------------------------------------------------ *)
(** ** C9: editing leaves omitted fields alone *)

(** The effect of an edit on the change request, on either provider. *)
Lemma edit_pr_effect (st st' : Store) (number : Z) (title body : option string) :
  github_edit_pr st number title body = inr st' \/ gitlab_edit_pr st number title body = inr st' ->
  exists old new, st !! number = Some old /\ st' = <[number := new]> st /\
    h_title new = (match title with Some t => if py_truthy title then t else h_title old
                                   | None => h_title old end) /\
    h_body new = (match body with Some b => if py_truthy body then Some b else h_body old
                                 | None => h_body old end) /\
    h_approved new = h_approved old /\ h_comments new = h_comments old.
Proof.
  intros [H|H].
  - unfold github_edit_pr, get_cr, bindE in H.
    destruct (st !! number) as [old|] eqn:Hold; [|discriminate H].
    injection H as <-. eexists old, _. split; [reflexivity|]. split; [reflexivity|].
    unfold github_edit_kwargs.
    destruct title as [t|], body as [b|]; cbn [py_truthy];
      try destruct (negb (String.eqb t "")); try destruct (negb (String.eqb b ""));
      cbn; auto.
  - unfold gitlab_edit_pr, get_cr, bindE in H.
    destruct (st !! number) as [old|] eqn:Hold; [|discriminate H].
    exists old.
    destruct title as [t|], body as [b|]; cbn [py_truthy gitlab_assign] in *;
      try destruct (negb (String.eqb t "")); try destruct (negb (String.eqb b ""));
      cbn in H; injection H as <-;
      first [ eexists; split; [reflexivity|]; split; [reflexivity|]; cbn; auto
            | exists old; split; [reflexivity|]; split;
              [symmetry; apply insert_id; exact Hold|]; auto ].
Qed.

(** C9. On both providers, a successful [edit_pr(n, title, body)] changes
    only change request [n]; an omitted or empty title leaves its title as
    it was, an omitted or empty body leaves its body as it was, and a
    non-empty field supplied is written. *)
Theorem edit_pr_frame (st st' : Store) (number : Z) (title body : option string) :
  github_edit_pr st number title body = inr st' \/ gitlab_edit_pr st number title body = inr st' ->
  exists old new, st !! number = Some old /\ st' !! number = Some new /\
    (forall n', n' <> number -> st' !! n' = st !! n') /\
    (py_truthy title = false -> h_title new = h_title old) /\
    (py_truthy body = false -> h_body new = h_body old) /\
    (forall t, title = Some t -> py_truthy title = true -> h_title new = t) /\
    (forall b, body = Some b -> py_truthy body = true -> h_body new = Some b).
Proof.
  intros H. destruct (edit_pr_effect st st' number title body H)
    as (old & new & Hold & -> & Ht & Hb & _ & _).
  exists old, new. split; [exact Hold|]. split; [apply lookup_insert_eq|].
  split; [intros n' Hn; apply lookup_insert_ne; congruence|].
  rewrite Ht, Hb.
  split; [intros Hf; destruct title; [now rewrite Hf|reflexivity]|].
  split; [intros Hf; destruct body; [now rewrite Hf|reflexivity]|].
  split; [intros t -> Hf; now rewrite Hf|].
  intros b -> Hf. now rewrite Hf.
Qed.

(** Editing only the body of pull request 1 on GitHub, and passing an
    empty title and no body on GitLab. *)
Lemma edit_pr_frame_witness :
  let st : Store := {[ 1 := mkHosted "Old title" (Some "old body") false [];
                       2 := mkHosted "Other" None false [] ]} in
  exists st1 st2,
    github_edit_pr st 1 None (Some "new body") = inr st1 /\
    gitlab_edit_pr st 1 (Some "") None = inr st2 /\
    (exists old new, st !! 1 = Some old /\ st1 !! 1 = Some new /\
      (forall n', n' <> 1 -> st1 !! n' = st !! n') /\
      (py_truthy None = false -> h_title new = h_title old) /\
      (py_truthy (Some "new body") = false -> h_body new = h_body old) /\
      (forall t, None = Some t -> py_truthy None = true -> h_title new = t) /\
      (forall b, Some "new body" = Some b -> py_truthy (Some "new body") = true ->
                 h_body new = Some b)).
Proof.
  intros st. eexists _, _.
  split; [reflexivity|]. split; [reflexivity|].
  exact (edit_pr_frame st _ 1 None (Some "new body") (or_introl eq_refl)).
Defined.

(* ------------------------------------------------------------------ *)
(** ** C10: the GitLab client URL *)

Lemma startswith_app_iff (sub s : string) :
  str_startswith sub s = true <-> exists post, s = sub ++ post.
Proof.
  revert s. induction sub as [|a sub IH]; intros s; cbn.
  - split; [intros _; exists s; reflexivity|reflexivity].
  - destruct s as [|b s].
    + split; [discriminate|intros (post & H); discriminate H].
    + rewrite andb_true_iff, IH, Ascii.eqb_eq. split.
      * intros (<- & post & H). exists post. rewrite H. reflexivity.
      * intros (post & H). injection H as <- H. split; [reflexivity|]. exists post. exact H.
Qed.

Lemma str_contains_iff (sub s : string) :
  str_contains sub s = true <-> exists pre post, s = pre ++ sub ++ post.
Proof.
  induction s as [|c s IH]; cbn [str_contains]; rewrite orb_true_iff, startswith_app_iff.
  - split.
    + intros [(post & H)|H]; [exists "", post; exact H|discriminate H].
    + intros (pre & post & H). left. exists post. destruct pre; [exact H|discriminate H].
  - rewrite IH. split.
    + intros [(post & H)|(pre & post & H)].
      * exists "", post. exact H.
      * exists (String c pre), post. rewrite H. reflexivity.
    + intros (pre & post & H). destruct pre as [|d pre].
      * left. exists post. exact H.
      * right. injection H as _ H. exists pre, post. exact H.
Qed.

(** C10. [GitLabForge] connects to "https://gitlab.com" when the base URL
    it is given contains "api.github.com" somewhere, and to the given URL
    unchanged otherwise. *)
Theorem gitlab_client_url_spec (base_url : string) :
  (gitlab_client_url base_url = "https://gitlab.com" /\
     exists pre post, base_url = pre ++ "api.github.com" ++ post) \/
  (gitlab_client_url base_url = base_url /\
     ~ exists pre post, base_url = pre ++ "api.github.com" ++ post).
Proof.
  unfold gitlab_client_url. rewrite <- str_contains_iff.
  destruct (str_contains "api.github.com" base_url); [left|right]; split; auto.
Qed.

(* ================================================================== *)
(** * Further properties of the code *)

(** ** GitLab's line counts *)

Lemma py_split_newline_nonempty s : py_split_newline s <> [].
Proof.
  destruct s as [|a s]; cbn; [discriminate|].
  destruct (Ascii.eqb a nl); [discriminate|].
  destruct (py_split_newline s); discriminate.
Qed.

Lemma py_split_newline_tl a s :
  Ascii.eqb a nl = false -> List.tl (py_split_newline (String a s)) = List.tl (py_split_newline s).
Proof.
  intros Ha. cbn. rewrite Ha.
  pose proof (py_split_newline_nonempty s) as Hne.
  destruct (py_split_newline s); [contradiction|reflexivity].
Qed.

Lemma py_split_newline_nl s : py_split_newline (String nl s) = "" :: py_split_newline s.
Proof. cbn. now rewrite Ascii.eqb_refl. Qed.

Lemma filter_split_head (c b : Ascii.ascii) (s : string) :
  Ascii.eqb c b = false ->
  List.filter (str_startswith (String c "")) (py_split_newline (String b s)) =
  List.filter (str_startswith (String c "")) (List.tl (py_split_newline (String b s))).
Proof.
  intros Hcb. destruct (Ascii.eqb b nl) eqn:Hb.
  - apply Ascii.eqb_eq in Hb as ->. rewrite py_split_newline_nl. reflexivity.
  - cbn [py_split_newline]. rewrite Hb.
    pose proof (py_split_newline_nonempty s) as Hne.
    destruct (py_split_newline s) as [|l ls]; [contradiction|].
    cbn [List.tl List.filter str_startswith]. rewrite Hcb. reflexivity.
Qed.

(** The lines after the first that start with [c]. *)
Lemma str_count_scan_lines (c : Ascii.ascii) (n : nat) (s : string) :
  Ascii.eqb c nl = false -> (String.length s <= n)%nat ->
  str_count_scan n (String nl (String c "")) s =
  length (List.filter (str_startswith (String c "")) (List.tl (py_split_newline s))).
Proof.
  intros Hc. remember (str_startswith (String c "")) as P eqn:HP.
  revert s. induction n as [|n IH]; intros s Hlen.
  { destruct s; [reflexivity|cbn in Hlen; lia]. }
  destruct s as [|a s']; [reflexivity|]. cbn in Hlen.
  cbn [str_count_scan str_startswith].
  destruct (Ascii.eqb a nl) eqn:Ha.
  - apply Ascii.eqb_eq in Ha as ->. rewrite py_split_newline_nl. cbn [List.tl].
    rewrite Ascii.eqb_refl. cbn [andb].
    destruct s' as [|b s''].
    + cbn. subst P. destruct n; reflexivity.
    + cbn [str_startswith]. destruct (Ascii.eqb c b) eqn:Hcb.
      * apply Ascii.eqb_eq in Hcb as <-. rewrite andb_true_r.
        cbn [String.length str_drop].
        rewrite IH by (cbn in Hlen; lia).
        cbn [py_split_newline]. rewrite Hc.
        pose proof (py_split_newline_nonempty s'') as Hne.
        destruct (py_split_newline s'') as [|l ls]; [contradiction|].
        cbn [List.tl List.filter]. subst P. cbn [str_startswith].
        rewrite Ascii.eqb_refl. reflexivity.
      * cbn [andb]. rewrite IH by (cbn in Hlen |- *; apply le_S_n; exact Hlen).
        symmetry. subst P. now rewrite filter_split_head.
  - rewrite Ascii.eqb_sym, Ha. cbn [andb]. rewrite IH by lia. symmetry. now apply f_equal, f_equal, py_split_newline_tl.
Qed.

(** X1. For each change GitLab reports, [get_files] gives, in the same
    order, the status "added" for a new file and "modified" for every other
    change (a deleted or renamed file included), and as additions
    (deletions) the number of lines of the diff, the first one excepted,
    that start with "+" ("-"); a first line is never counted, and
    "+++"/"---" header lines after it are. *)
Theorem gitlab_get_files_counts (changes : list GitLabChange) :
  map fd_filename (gitlab_get_files changes) = map glch_new_path changes /\
  map fd_status (gitlab_get_files changes) =
    map (fun ch => if glch_new_file ch then "added" else "modified") changes /\
  map fd_additions (gitlab_get_files changes) =
    map (fun ch => length (List.filter (str_startswith "+")
                             (List.tl (py_split_newline (glch_diff ch))))) changes /\
  map fd_deletions (gitlab_get_files changes) =
    map (fun ch => length (List.filter (str_startswith "-")
                             (List.tl (py_split_newline (glch_diff ch))))) changes.
Proof.
  unfold gitlab_get_files. rewrite !map_map.
  split; [reflexivity|]. split; [apply map_ext; intros ch; cbn; now destruct (glch_new_file ch)|].
  split; apply map_ext; intros ch; cbn [gitlab_file_diff fd_additions fd_deletions];
    unfold py_str_count; cbn [String.eqb]; apply str_count_scan_lines; reflexivity.
Qed.

(** ** Comments, reviews and edits *)

(** X3. On GitLab, [submit_review] with any event other than "APPROVE"
    never calls the approve endpoint: it only posts [body] as a comment,
    prefixed with "⛔ Requesting Changes: " for "REQUEST_CHANGES" and
    unprefixed otherwise, so the approval state is left as it was. *)
Theorem gitlab_submit_review_other_events (approve : Store -> Z -> Exn + Store)
    (st : Store) (number : Z) (event body : string) :
  event <> "APPROVE" ->
  gitlab_submit_review approve st number event body =
    gitlab_comment st number ((if String.eqb event "REQUEST_CHANGES" then changes_prefix else "") ++ body).
Proof.
  intros Hev. unfold gitlab_submit_review, gitlab_comment.
  apply String.eqb_neq in Hev. rewrite Hev.
  unfold get_cr, bindE, notes_create, get_cr, bindE.
  destruct (st !! number); reflexivity.
Qed.

Lemma gitlab_submit_review_other_events_witness :
  let st : Store := {[ 2 := mkHosted "T" None false [] ]} in
  gitlab_submit_review gitlab_approve st 2 "REQUEST_CHANGES" "fix tests" =
    inr {[ 2 := mkHosted "T" None false [changes_prefix ++ "fix tests"] ]}.
Proof.
  intros st.
  rewrite (gitlab_submit_review_other_events gitlab_approve st 2 "REQUEST_CHANGES" "fix tests"
             ltac:(discriminate)).
  unfold gitlab_comment, notes_create, get_cr, bindE, st.
  rewrite lookup_singleton_eq. cbn. now rewrite insert_singleton.
Defined.

(** X5. On both providers, [edit_pr] on a missing number raises
    [NotFound] for that number, and on an existing one with neither a
    non-empty title nor a non-empty body it leaves the store exactly as it
    was. *)
Theorem edit_pr_missing_or_noop (st : Store) (number : Z) (title body : option string) :
  (st !! number = None ->
     github_edit_pr st number title body = inl (NotFound number) /\
     gitlab_edit_pr st number title body = inl (NotFound number)) /\
  (is_Some (st !! number) -> py_truthy title = false -> py_truthy body = false ->
     github_edit_pr st number title body = inr st /\ gitlab_edit_pr st number title body = inr st).
Proof.
  unfold github_edit_pr, gitlab_edit_pr, get_cr, bindE. split.
  - intros ->. split; reflexivity.
  - intros [h Hh] Ht Hb. rewrite Hh.
    assert (Hk : github_edit_kwargs title body = []).
    { unfold github_edit_kwargs. destruct title, body; cbn in *; rewrite ?Ht, ?Hb; reflexivity. }
    assert (Hu : gitlab_assign (gitlab_assign [] "title" title) "description" body = []).
    { destruct title, body; cbn in *; rewrite ?Ht, ?Hb; reflexivity. }
    rewrite Hk, Hu. split; [|reflexivity].
    cbn. f_equal. now apply insert_id.
Qed.

Lemma edit_pr_missing_or_noop_witness :
  let st : Store := {[ 1 := mkHosted "T" (Some "B") false [] ]} in
  github_edit_pr st 3 (Some "x") None = inl (NotFound 3) /\
  gitlab_edit_pr st 1 (Some "") None = inr st.
Proof.
  intros st. split.
  - exact (proj1 (proj1 (edit_pr_missing_or_noop st 3 (Some "x") None) eq_refl)).
  - exact (proj2 (proj2 (edit_pr_missing_or_noop st 1 (Some "") None)
                    ltac:(eexists; reflexivity) eq_refl eq_refl)).
Defined.

(** ** Parsing the origin remote *)

(** [String.append] does not unfold under [simpl] and [cbn] here: its
    defining equations. *)
Lemma str_app_nil (y : string) : ("" ++ y)%string = y.
Proof. reflexivity. Qed.

Lemma str_app_cons (a : Ascii.ascii) (x y : string) : (String a x ++ y)%string = String a (x ++ y).
Proof. reflexivity. Qed.

Lemma str_app_assoc (x y z : string) : ((x ++ y) ++ z = x ++ (y ++ z))%string.
Proof. induction x as [|a x IH]; [reflexivity|]. now rewrite !str_app_cons, IH. Qed.

Lemma str_forall_app (f : Ascii.ascii -> bool) (x y : string) :
  str_forall f (x ++ y) = str_forall f x && str_forall f y.
Proof.
  induction x as [|a x IH]; [reflexivity|].
  rewrite str_app_cons. cbn [str_forall]. now rewrite IH, andb_assoc.
Qed.

Lemma words_not_slash (w : string) :
  str_forall is_word w = true -> str_forall not_slash w = true.
Proof.
  induction w as [|c w IH]; cbn; [reflexivity|]. intros [Hc Hw]%andb_prop.
  rewrite IH by exact Hw. unfold not_slash.
  destruct (Ascii.eqb c "/"%char) eqn:E; [|reflexivity].
  apply Ascii.eqb_eq in E. subst c. discriminate Hc.
Qed.

Lemma last_slash_unique (x y x' y' : string) :
  str_forall not_slash y = true -> str_forall not_slash y' = true ->
  (x ++ String "/" y = x' ++ String "/" y')%string -> x = x' /\ y = y'.
Proof.
  revert x'. induction x as [|a x IH]; intros [|a' x'] Hy Hy' E; cbn in E.
  - injection E as E. auto.
  - injection E as <- E. subst y. rewrite str_forall_app in Hy. cbn in Hy.
    apply andb_prop in Hy as [_ Hy]. discriminate Hy.
  - injection E as -> E. subst y'. rewrite str_forall_app in Hy'. cbn in Hy'.
    apply andb_prop in Hy' as [_ Hy']. discriminate Hy'.
  - injection E as <- E. destruct (IH x' Hy Hy' E) as [-> ->]. auto.
Qed.

Lemma word_splits_sound (s w r : string) :
  In (w, r) (word_splits s) ->
  s = (w ++ r)%string /\ w <> "" /\ str_forall is_word w = true.
Proof.
  revert w r. induction s as [|c s IH]; intros w r Hin; cbn in Hin; [contradiction|].
  destruct (is_word c) eqn:Hc; [|contradiction].
  apply in_app_or in Hin as [Hin|[Hin|[]]].
  - apply in_map_iff in Hin as ([w' r'] & E & Hin). cbn in E. injection E as <- <-.
    destruct (IH w' r' Hin) as (-> & _ & Hw). rewrite str_app_cons. cbn [str_forall].
    rewrite Hc, Hw. split; [reflexivity|]. split; [discriminate|reflexivity].
  - injection Hin as <- <-. cbn. rewrite Hc. split; [reflexivity|]. split; [discriminate|reflexivity].
Qed.

Lemma first_some_sound {A B} (f : A -> option B) (l : list A) (y : B) :
  first_some f l = Some y -> exists x, In x l /\ f x = Some y.
Proof.
  induction l as [|x l IH]; cbn; [discriminate|].
  destruct (f x) eqn:E.
  - intros [= ->]. exists x. auto.
  - intros H. destruct (IH H) as (x' & Hin & Hx). exists x'. auto.
Qed.

Lemma substring_0_length (s : string) : String.substring 0 (String.length s) s = s.
Proof. induction s as [|c s IH]; cbn; [reflexivity|]. now rewrite IH. Qed.

Lemma git_suffix_eol_cases (t : string) :
  git_suffix_eol t = true -> In t [""; ".git"; String nl ""; (".git" ++ String nl "")%string].
Proof.
  unfold git_suffix_eol, at_eol. rewrite orb_true_iff, andb_true_iff, startswith_app_iff.
  intros [[[post ->] H]|H].
  - rewrite !str_app_cons, str_app_nil in H.
    cbn [String.length String.substring Nat.sub] in H. rewrite Nat.sub_0_r, substring_0_length in H.
    apply orb_true_iff in H as [H|H]; apply String.eqb_eq in H as ->; cbn; auto.
  - apply orb_true_iff in H as [H|H]; apply String.eqb_eq in H as ->; cbn; auto.
Qed.

Lemma git_tails_not_slash (t : string) :
  In t [""; ".git"; String nl ""; (".git" ++ String nl "")%string] -> str_forall not_slash t = true.
Proof. cbn. intros [<-|[<-|[<-|[<-|[]]]]]; reflexivity. Qed.

Lemma match_at_sound (s g1 g2 : string) :
  match_at s = Some (g1, g2) ->
  exists sep t, s = String sep (g1 ++ "/" ++ g2 ++ t)%string /\
    (sep = ":"%char \/ sep = "/"%char) /\
    g1 <> "" /\ str_forall is_word g1 = true /\ g2 <> "" /\ str_forall is_word g2 = true /\
    In t [""; ".git"; String nl ""; (".git" ++ String nl "")%string].
Proof.
  destruct s as [|sep s]; cbn [match_at]; [discriminate|].
  destruct (Ascii.eqb sep ":"%char || Ascii.eqb sep "/"%char) eqn:Hsep; [|discriminate].
  intros ([w1 r1] & Hin1 & H1)%first_some_sound. cbn [fst snd] in H1.
  destruct (word_splits_sound _ _ _ Hin1) as (-> & Hne1 & Hw1).
  destruct r1 as [|d r2]; [discriminate|].
  destruct (Ascii.eqb d "/"%char) eqn:Hd; [|discriminate]. apply Ascii.eqb_eq in Hd as ->.
  apply first_some_sound in H1 as ([w2 t] & Hin2 & H2). cbn [fst snd] in H2.
  destruct (git_suffix_eol t) eqn:Ht; [|discriminate]. injection H2 as <- <-.
  destruct (word_splits_sound _ _ _ Hin2) as (-> & Hne2 & Hw2).
  exists sep, t. split; [reflexivity|].
  split; [apply orb_true_iff in Hsep as [H|H]; apply Ascii.eqb_eq in H; auto|].
  repeat split; auto using git_suffix_eol_cases.
Qed.

Lemma re_search_unfold (s : string) :
  re_search s =
    match match_at s with
    | Some m => Some m
    | None => match s with EmptyString => None | String _ s' => re_search s' end
    end.
Proof. destruct s; reflexivity. Qed.

Lemma re_search_sound (s : string) (m : string * string) :
  re_search s = Some m -> exists pre x, s = (pre ++ x)%string /\ match_at x = Some m.
Proof.
  induction s as [|c s IH]; rewrite re_search_unfold.
  - destruct (match_at "") eqn:E; [|discriminate]. intros [= <-]. exists "", "". auto.
  - destruct (match_at (String c s)) eqn:E.
    + intros [= <-]. exists "", (String c s). auto.
    + intros (pre & x & -> & Hx)%IH. exists (String c pre), x. auto.
Qed.

Lemma word_splits_head (w r : string) :
  w <> "" -> str_forall is_word w = true ->
  match r with String c _ => is_word c = false | EmptyString => True end ->
  exists rest, word_splits (w ++ r) = (w, r) :: rest.
Proof.
  intros Hne Hw Hr. induction w as [|a w IH]; [contradiction|].
  cbn in Hw. apply andb_prop in Hw as [Ha Hw].
  rewrite str_app_cons. cbn [word_splits]. rewrite Ha. destruct w as [|b w].
  - rewrite str_app_nil.
    destruct r as [|c r']; cbn [word_splits]; [|rewrite Hr]; cbn; eexists; reflexivity.
  - destruct (IH ltac:(discriminate) Hw) as (rest & E). rewrite E. cbn. eexists. reflexivity.
Qed.

Lemma match_at_complete (sep : Ascii.ascii) (o n tail : string) :
  (sep = ":"%char \/ sep = "/"%char) ->
  o <> "" -> str_forall is_word o = true -> n <> "" -> str_forall is_word n = true ->
  In tail [""; ".git"; String nl ""; (".git" ++ String nl "")%string] ->
  match_at (String sep (o ++ "/" ++ n ++ tail)) = Some (o, n).
Proof.
  intros Hsep Hone Ho Hnne Hn Ht. cbn [match_at].
  replace (Ascii.eqb sep ":"%char || Ascii.eqb sep "/"%char) with true
    by (destruct Hsep as [-> | ->]; reflexivity).
  change ("/" ++ n ++ tail)%string with (String "/" (n ++ tail)).
  destruct (word_splits_head o (String "/" (n ++ tail)) Hone Ho eq_refl) as (rest1 & E1).
  rewrite E1. cbn [first_some fst snd]. rewrite Ascii.eqb_refl.
  destruct (word_splits_head n tail Hnne Hn) as (rest2 & E2).
  { cbn in Ht. destruct Ht as [<-|[<-|[<-|[<-|[]]]]]; reflexivity. }
  rewrite E2. cbn [first_some fst snd].
  replace (git_suffix_eol tail) with true
    by (cbn in Ht; destruct Ht as [<-|[<-|[<-|[<-|[]]]]]; reflexivity).
  reflexivity.
Qed.

Lemma match_at_prefix_none (q : string) (sep : Ascii.ascii) (o n tail : string) :
  q <> "" -> (sep = ":"%char \/ sep = "/"%char) ->
  str_forall is_word o = true -> str_forall is_word n = true ->
  In tail [""; ".git"; String nl ""; (".git" ++ String nl "")%string] ->
  match_at (q ++ String sep (o ++ "/" ++ n ++ tail)) = None.
Proof.
  intros Hq Hsep Ho Hn Ht.
  destruct (match_at _) as [[g1 g2]|] eqn:E; [exfalso|reflexivity].
  apply match_at_sound in E as (c & t & E & _ & _ & Hg1 & _ & Hg2 & Htc).
  assert (E' : ((q ++ String sep o) ++ String "/" (n ++ tail) =
                String c g1 ++ String "/" (g2 ++ t))%string)
    by (rewrite str_app_assoc; exact E).
  apply last_slash_unique in E' as [E' _].
  2, 3: rewrite str_forall_app; apply andb_true_intro; split;
        auto using words_not_slash, git_tails_not_slash.
  destruct q as [|a q]; [contradiction|]. injection E' as _ E'. subst g1.
  rewrite str_forall_app in Hg1. apply andb_prop in Hg1 as [_ Hg1].
  destruct Hsep as [-> | ->]; discriminate Hg1.
Qed.

Lemma re_search_after_prefix (p : string) (sep : Ascii.ascii) (o n tail : string) :
  (sep = ":"%char \/ sep = "/"%char) ->
  str_forall is_word o = true -> str_forall is_word n = true ->
  In tail [""; ".git"; String nl ""; (".git" ++ String nl "")%string] ->
  re_search (p ++ String sep (o ++ "/" ++ n ++ tail)) =
  re_search (String sep (o ++ "/" ++ n ++ tail)).
Proof.
  intros Hsep Ho Hn Ht. induction p as [|a p IH]; [reflexivity|].
  cbn [String.append]. rewrite re_search_unfold.
  pose proof (match_at_prefix_none (String a p) sep o n tail ltac:(discriminate) Hsep Ho Hn Ht) as H.
  cbn [String.append] in H. rewrite H. exact IH.
Qed.

(** X6. A remote URL of the form [pre] [:] or [/] [owner] [/] [name],
    followed by nothing, ".git", a newline or ".git" and a newline, where
    [owner] and [name] are non-empty runs of letters, digits, [_] and [-],
    is detected as "owner/name", whatever [pre] is: this covers both
    "git@host:owner/name.git" and "https://host/owner/name.git". *)
Theorem get_current_repo_context_remote (pre : string) (sep : Ascii.ascii) (owner name tail : string) :
  (sep = ":"%char \/ sep = "/"%char) ->
  owner <> "" -> str_forall is_word owner = true ->
  name <> "" -> str_forall is_word name = true ->
  In tail [""; ".git"; String nl ""; (".git" ++ String nl "")%string] ->
  get_current_repo_context (Some (pre ++ String sep (owner ++ "/" ++ name ++ tail))) =
    Some (owner ++ "/" ++ name)%string.
Proof.
  intros Hsep Hone Ho Hnne Hn Ht. cbn [get_current_repo_context].
  rewrite re_search_after_prefix by assumption.
  rewrite re_search_unfold, match_at_complete by assumption. reflexivity.
Qed.

Lemma get_current_repo_context_remote_witness :
  get_current_repo_context (Some "git@gitlab.example.com:my-group/my_repo.git") =
    Some "my-group/my_repo" /\
  get_current_repo_context (Some "https://github.com/acme/widgets") = Some "acme/widgets".
Proof.
  split.
  - exact (get_current_repo_context_remote "git@gitlab.example.com" ":"%char "my-group" "my_repo" ".git"
             (or_introl eq_refl) ltac:(discriminate) eq_refl ltac:(discriminate) eq_refl
             ltac:(cbn; auto)).
  - exact (get_current_repo_context_remote "https://github.com" "/"%char "acme" "widgets" ""
             (or_intror eq_refl) ltac:(discriminate) eq_refl ltac:(discriminate) eq_refl
             ltac:(cbn; auto)).
Defined.

(** X7. Conversely, whenever an ASCII remote URL is detected as [r], the URL
    ends in [:] or [/], a non-empty word run [owner], [/], a non-empty word
    run [name] and one of nothing, ".git", a newline, ".git" and a newline,
    and [r] is "owner/name". *)
Theorem get_current_repo_context_sound (url r : string) :
  str_forall ascii_char url = true ->
  get_current_repo_context (Some url) = Some r ->
  exists pre sep owner name tail,
    url = (pre ++ String sep (owner ++ "/" ++ name ++ tail))%string /\
    (sep = ":"%char \/ sep = "/"%char) /\
    owner <> "" /\ str_forall is_word owner = true /\
    name <> "" /\ str_forall is_word name = true /\
    In tail [""; ".git"; String nl ""; (".git" ++ String nl "")%string] /\
    r = (owner ++ "/" ++ name)%string.
Proof.
  intros _. cbn [get_current_repo_context].
  destruct (re_search url) as [[g1 g2]|] eqn:E; [|discriminate]. intros [= <-].
  apply re_search_sound in E as (pre & x & -> & Hx).
  apply match_at_sound in Hx as (sep & t & -> & Hsep & H1 & H2 & H3 & H4 & Ht).
  exists pre, sep, g1, g2, t. auto 10.
Qed.

Lemma get_current_repo_context_sound_witness :
  exists pre sep owner name tail,
    "ssh://git@host:22/team/app"%string = (pre ++ String sep (owner ++ "/" ++ name ++ tail))%string /\
    owner = "team" /\ name = "app".
Proof.
  destruct (get_current_repo_context_sound "ssh://git@host:22/team/app" "team/app" eq_refl eq_refl)
    as (pre & sep & owner & name & tail & E & Hsep & Hone & Ho & Hnne & Hn & Ht & Er).
  exists pre, sep, owner, name, tail. split; [exact E|].
  destruct (last_slash_unique owner name "team" "app") as [-> ->];
    [now apply words_not_slash|reflexivity|exact (eq_sym Er)|auto].
Defined.

(** ** The key file *)

Lemma load_or_create_key_reload (generated generated' : list Z) (fs : KeyFS) :
  load_or_create_key generated' (load_or_create_key generated fs).1 = load_or_create_key generated fs.
Proof. unfold load_or_create_key. destruct (key_file fs) eqn:E; cbn; rewrite ?E; reflexivity. Qed.

(** X8. [load_or_create_key] never overwrites an existing key file: it
    returns its contents and leaves the files as they are. After any call
    the key file holds the key returned, and a later call returns that same
    key and changes nothing, whatever key it would have generated. *)
Theorem load_or_create_key_stable (generated generated' : list Z) (fs : KeyFS) :
  let r := load_or_create_key generated fs in
  key_file r.1 = Some r.2 /\
  (forall key, key_file fs = Some key -> r = (fs, key)) /\
  load_or_create_key generated' r.1 = r.
Proof.
  cbn zeta. unfold load_or_create_key.
  destruct (key_file fs) as [k|] eqn:E; cbn.
  - split; [exact E|]. split; [intros key [= ->]; reflexivity|now rewrite E].
  - split; [reflexivity|]. split; [discriminate|reflexivity].
Qed.

Lemma encrypt_decrypt_token `{F : Fernet} (k : fernet_key) (iv : list Z) (now : Z) (s : list Z) :
  Forall unicode_scalar s ->
  exists e, encrypt_token k iv now s = Some e /\ decrypt_token k e = Some s.
Proof.
  intros Hs. destruct (utf8_encode_decode s Hs) as (bs & Henc & Hbytes & Hdec).
  pose proof (fernet_token_ascii k iv now bs Hbytes) as Hascii.
  exists (fernet_encrypt k iv now bs). unfold encrypt_token, decrypt_token.
  rewrite Henc, (utf8_ascii_decode _ Hascii), (utf8_ascii_encode _ Hascii).
  rewrite (fernet_decrypt_encrypt k iv now bs Hbytes). auto.
Qed.

(** X9. A token of Unicode scalar values encrypted by main.py's
    [encrypt_token] is given back by a later [decrypt_token] on the files
    the first call left, whatever key the later call would have generated,
    provided the key in the key file is a valid Fernet key. *)
Theorem token_survives_restart `{F : Fernet} (fernet_of_bytes : list Z -> option fernet_key)
    (generated generated' iv : list Z) (now : Z) (fs : KeyFS) (token : list Z) :
  Forall unicode_scalar token ->
  fernet_of_bytes (load_or_create_key generated fs).2 <> None ->
  exists e,
    main_encrypt_token fernet_of_bytes generated fs iv now token =
      ((load_or_create_key generated fs).1, Some e) /\
    main_decrypt_token fernet_of_bytes generated' (load_or_create_key generated fs).1 e =
      ((load_or_create_key generated fs).1, Some token).
Proof.
  intros Hs Hk. unfold main_encrypt_token, main_decrypt_token.
  rewrite load_or_create_key_reload.
  destruct (load_or_create_key generated fs) as [fs1 key]. cbn in Hk |- *.
  destruct (fernet_of_bytes key) as [k|]; [|contradiction].
  destruct (encrypt_decrypt_token k iv now token Hs) as (e & He & Hd).
  exists e. rewrite He, Hd. auto.
Qed.

Lemma token_survives_restart_witness :
  exists e,
    main_encrypt_token (F := toy_fernet) (fun _ => Some tt) [0x41] (mkKeyFS false None) [] 0
      [0x41; 0x20AC] = (mkKeyFS true (Some [0x41]), Some e) /\
    main_decrypt_token (F := toy_fernet) (fun _ => Some tt) [0x42] (mkKeyFS true (Some [0x41])) e =
      (mkKeyFS true (Some [0x41]), Some [0x41; 0x20AC]).
Proof.
  assert (H : Forall unicode_scalar [0x41; 0x20AC]) by (repeat constructor; vm_compute; congruence).
  exact (token_survives_restart (F := toy_fernet) (fun _ => Some tt) [0x41] [0x42] [] 0
           (mkKeyFS false None) [0x41; 0x20AC] H ltac:(discriminate)).
Defined.

(** ** The cleanup command *)

Lemma existsb_eqb_In (l : list string) (x : string) :
  existsb (String.eqb x) l = true <-> In x l.
Proof.
  rewrite existsb_exists. split.
  - intros (y & Hy & E). apply String.eqb_eq in E. subst y. exact Hy.
  - intros H. exists x. split; [exact H|apply String.eqb_refl].
Qed.

(** X10. [cleanup] stops before deleting anything when the branch is not
    on the remote. Otherwise its only deleting calls are the deletion of
    the remote ref "heads/<branch>", made exactly when the first
    confirmation is accepted, and a local [git branch] on that branch, made
    exactly when [branch in local_repo.heads] holds in a git repository and
    the second confirmation is accepted; the force flag "-D" is used
    exactly when no merged closed pull request from [owner:branch] was
    found. *)
Theorem cleanup_calls (branch_name : string) (remote_branches : list string) (owner : string)
    (pulls : list (string * GitHubPull)) (confirm_remote : bool)
    (in_heads : option bool) (confirm_local : bool) :
  match cleanup branch_name remote_branches owner pulls confirm_remote in_heads confirm_local with
  | None => ~ In branch_name remote_branches
  | Some calls =>
      In branch_name remote_branches /\
      (In (DeleteRemoteRef ("heads/" ++ branch_name)) calls <-> confirm_remote = true) /\
      ((exists flag, In (LocalBranchDelete flag branch_name) calls) <->
         confirm_local = true /\ in_heads = Some true) /\
      (forall c, In c calls ->
         c = DeleteRemoteRef ("heads/" ++ branch_name) \/
         exists flag, c = LocalBranchDelete flag branch_name /\
           (flag = "-D" <-> cleanup_is_merged owner branch_name pulls = false))
  end.
Proof.
  unfold cleanup. destruct (existsb (String.eqb branch_name) remote_branches) eqn:Hr; cbn [negb].
  2: { intros H. apply existsb_eqb_In in H. congruence. }
  apply existsb_eqb_In in Hr. split; [exact Hr|].
  set (m := cleanup_is_merged owner branch_name pulls).
  assert (Hflag : (if negb m then "-D" else "-d") = "-D" <-> m = false)
    by (destruct m; cbn; split; congruence).
  set (L := match in_heads with
            | Some found =>
                if found then
                  if confirm_local then [LocalBranchDelete (if negb m then "-D" else "-d") branch_name]
                  else [] else []
            | None => [] end).
  assert (HL : forall c, In c L <->
     c = LocalBranchDelete (if negb m then "-D" else "-d") branch_name /\ confirm_local = true /\
     in_heads = Some true).
  { intros c. subst L. destruct in_heads as [[|]|]; [destruct confirm_local|..]; cbn.
    - split; [intros [<-|[]]; auto|intros (-> & _); auto].
    - split; [intros []|intros (_ & [=] & _)].
    - split; [intros []|intros (_ & _ & [=])].
    - split; [intros []|intros (_ & _ & [=])]. }
  split; [split|split; [split|]].
  - intros Hin. apply in_app_or in Hin as [Hin|Hin].
    + destruct confirm_remote; [reflexivity|destruct Hin].
    + apply HL in Hin as ([=] & _).
  - intros ->. apply in_or_app. left. left. reflexivity.
  - intros (flag & Hin). apply in_app_or in Hin as [Hin|Hin].
    + destruct confirm_remote; [destruct Hin as [[=]|[]]|destruct Hin].
    + apply HL in Hin. tauto.
  - intros Hc. exists (if negb m then "-D" else "-d"). apply in_or_app. right. apply HL. tauto.
  - intros c Hin. apply in_app_or in Hin as [Hin|Hin].
    + left. destruct confirm_remote; [destruct Hin as [<-|[]]; reflexivity|destruct Hin].
    + right. apply HL in Hin as (-> & _). eexists. split; [reflexivity|exact Hflag].
Qed.

Lemma any_merged_existsb (pulls : list GitHubPull) : any_merged pulls = existsb gh_merged pulls.
Proof.
  induction pulls as [|p ps IH]; cbn [any_merged existsb]; [reflexivity|].
  rewrite IH. now destruct (gh_merged p).
Qed.

(** X11. The merge check of [cleanup] and [find_merged_branches] agree up
    to the head owner: if [cleanup] finds [branch] merged for some owner,
    [find_merged_branches] lists [branch]; and a branch it lists is found
    merged by [cleanup] for the owner of some pull request with that head. *)
Theorem cleanup_merged_listed (pulls : list (string * GitHubPull)) (branch : string) :
  (forall owner, cleanup_is_merged owner branch pulls = true ->
     In branch (github_find_merged_branches (map snd pulls))) /\
  (In branch (github_find_merged_branches (map snd pulls)) ->
     exists owner, In owner (map fst pulls) /\ cleanup_is_merged owner branch pulls = true).
Proof.
  unfold cleanup_is_merged, cleanup_pulls, github_find_merged_branches, github_get_pulls.
  split.
  - intros owner H. rewrite any_merged_existsb in H. apply existsb_exists in H as (p & Hin & Hm).
    apply filter_In in Hin as [Hin Hst]. apply in_map_iff in Hin as ([o q] & <- & Hin).
    apply filter_In in Hin as [Hin Hob]. cbn in Hob, Hst, Hm.
    apply andb_prop in Hob as [_ Hb]. apply String.eqb_eq in Hb.
    apply in_map_iff. exists q. split; [exact Hb|].
    apply filter_In. split; [|exact Hm]. apply filter_In. split; [|exact Hst].
    apply in_map_iff. exists (o, q). auto.
  - intros (q & Hb & Hin)%in_map_iff. apply filter_In in Hin as [Hin Hm].
    apply filter_In in Hin as [Hin Hst]. apply in_map_iff in Hin as ([o q'] & Eq & Hin).
    cbn in Eq. subst q'. exists o. split; [apply in_map_iff; exists (o, q); auto|].
    rewrite any_merged_existsb. apply existsb_exists. exists q. split; [|exact Hm].
    apply filter_In. split; [|exact Hst]. apply in_map_iff. exists (o, q). split; [reflexivity|].
    apply filter_In. split; [exact Hin|]. cbn. subst branch. now rewrite !String.eqb_refl.
Qed.

(** ** The review and comment prompts *)

Lemma py_lower_char_idem (c : Ascii.ascii) : py_lower_char (py_lower_char c) = py_lower_char c.
Proof. destruct c as [[] [] [] [] [] [] [] []]; reflexivity. Qed.

Lemma py_lower_idem (s : string) : py_lower (py_lower s) = py_lower s.
Proof. induction s as [|c s IH]; cbn; [reflexivity|]. now rewrite py_lower_char_idem, IH. Qed.

Lemma py_lstrip_forall (s : string) :
  str_forall py_isspace (py_lstrip s) = str_forall py_isspace s.
Proof.
  induction s as [|c s IH]; cbn; [reflexivity|].
  destruct (py_isspace c) eqn:Hc; cbn; [exact IH|now rewrite Hc].
Qed.

Lemma py_lstrip_empty (s : string) : py_lstrip s = "" <-> str_forall py_isspace s = true.
Proof.
  induction s as [|c s IH]; cbn; [split; reflexivity|].
  destruct (py_isspace c); cbn; [exact IH|split; discriminate].
Qed.

Lemma str_rev_forall (f : Ascii.ascii -> bool) (s : string) :
  str_forall f (str_rev s) = str_forall f s.
Proof.
  induction s as [|c s IH]; cbn; [reflexivity|].
  rewrite str_forall_app, IH. cbn. now rewrite andb_true_r, andb_comm.
Qed.

Lemma str_rev_empty (s : string) : str_rev s = "" <-> s = "".
Proof.
  destruct s as [|c s]; cbn; [split; reflexivity|].
  split; [|discriminate]. destruct (str_rev s); discriminate.
Qed.

Lemma py_strip_empty (s : string) : py_strip s = "" <-> str_forall py_isspace s = true.
Proof.
  unfold py_strip, py_rstrip.
  rewrite str_rev_empty, py_lstrip_empty, str_rev_forall, py_lstrip_forall. reflexivity.
Qed.

(** X12. In [review], for an ASCII decision and message, only the
    lower-cased decision matters. A submitted
    review is either an approval (decision "approve", body the message or
    "LGTM!" when it is empty, so never empty) or a REQUEST_CHANGES or
    COMMENT review whose body is the message and contains a non-whitespace
    character; the request and comment branches abort exactly on a
    whitespace-only message; any other decision submits nothing. *)
Theorem review_decide_bodies (answer msg : string) :
  str_forall ascii_char answer = true -> str_forall ascii_char msg = true ->
  review_decide answer msg = review_decide (py_lower answer) msg /\
  match review_decide answer msg with
  | ReviewSubmitted event body =>
      (py_lower answer = "approve" /\ event = "APPROVE" /\
       body = (if String.eqb msg "" then "LGTM!" else msg) /\ body <> "") \/
      ((py_lower answer = "request" /\ event = "REQUEST_CHANGES" \/
        py_lower answer = "comment" /\ event = "COMMENT") /\
       body = msg /\ str_forall py_isspace msg = false)
  | ReviewAborted =>
      (py_lower answer = "request" \/ py_lower answer = "comment") /\
      str_forall py_isspace msg = true
  | ReviewUnknownAction => ~ In (py_lower answer) ["approve"; "request"; "comment"]
  end.
Proof.
  intros _ _. unfold review_decide. rewrite py_lower_idem. split; [reflexivity|].
  assert (Hstrip : negb (String.eqb (py_strip msg) "") = negb (str_forall py_isspace msg)).
  { destruct (str_forall py_isspace msg) eqn:E.
    - apply py_strip_empty in E. now rewrite E.
    - destruct (String.eqb (py_strip msg) "") eqn:E'; [|reflexivity].
      apply String.eqb_eq, py_strip_empty in E'. congruence. }
  rewrite Hstrip.
  destruct (String.eqb (py_lower answer) "approve") eqn:Ha.
  { left. apply String.eqb_eq in Ha. repeat split; [exact Ha|].
    destruct (String.eqb msg "") eqn:Hm; [discriminate|]. apply String.eqb_neq in Hm. exact Hm. }
  destruct (String.eqb (py_lower answer) "request") eqn:Hr.
  { apply String.eqb_eq in Hr.
    destruct (str_forall py_isspace msg) eqn:Hm; cbn; [auto|right; auto]. }
  destruct (String.eqb (py_lower answer) "comment") eqn:Hc.
  { apply String.eqb_eq in Hc.
    destruct (str_forall py_isspace msg) eqn:Hm; cbn; [auto|right; auto]. }
  apply String.eqb_neq in Ha, Hr, Hc. cbn. intuition congruence.
Qed.

(** X13. The [comment] command, given ASCII text from the editor, posts
    a comment exactly when the text contains a non-whitespace character, and then appends that text
    unchanged to the pull request's comments; when the editor is closed
    without saving or the text is empty or whitespace only, it exits
    without writing. A missing pull request raises [NotFound]. *)
Theorem main_comment_outcome (st : Store) (number : Z) (edited : option string) :
  match edited with Some body => str_forall ascii_char body = true | None => True end ->
  match st !! number with
  | None => main_comment st number edited = inl (NotFound number)
  | Some h =>
      (main_comment st number edited = inr None /\
         (edited = None \/ exists body, edited = Some body /\ str_forall py_isspace body = true)) \/
      (exists body, edited = Some body /\ str_forall py_isspace body = false /\
         main_comment st number edited =
           inr (Some (<[number := mkHosted (h_title h) (h_body h) (h_approved h)
                                    (h_comments h ++ [body])]> st)))
  end.
Proof.
  intros _. unfold main_comment, github_comment, get_cr, bindE.
  destruct (st !! number) as [h|] eqn:E; [|reflexivity].
  destruct edited as [body|]; [|left; auto].
  destruct (str_forall py_isspace body) eqn:Hb.
  - left. split; [|right; eauto].
    assert (Hs : py_strip body = "") by (apply py_strip_empty; exact Hb).
    rewrite Hs, orb_true_r. reflexivity.
  - right. exists body. split; [reflexivity|]. split; [exact Hb|].
    destruct (String.eqb (py_strip body) "") eqn:Hs.
    { apply String.eqb_eq, py_strip_empty in Hs. congruence. }
    destruct (String.eqb body "") eqn:He.
    { apply String.eqb_eq in He. subst body. discriminate Hb. }
    reflexivity.
Qed.

Lemma review_decide_bodies_witness :
  str_forall ascii_char "Request" = true /\ str_forall ascii_char "missing tests" = true /\
  review_decide "Request" "missing tests" = review_decide "request" "missing tests".
Proof.
  split; [reflexivity|]. split; [reflexivity|].
  exact (proj1 (review_decide_bodies "Request" "missing tests" eq_refl eq_refl)).
Defined.

Lemma main_comment_outcome_witness :
  let st : Store := {[ 5 := mkHosted "T" None false [] ]} in
  main_comment st 5 (Some "looks good") = inr (Some {[ 5 := mkHosted "T" None false ["looks good"] ]}).
Proof.
  intros st.
  pose proof (main_comment_outcome st 5 (Some "looks good") eq_refl) as H.
  unfold st in *. rewrite lookup_singleton_eq in H.
  destruct H as [[_ [H|(b & [= <-] & Hb)]] | (b & [= <-] & _ & H)];
    [discriminate H|vm_compute in Hb; discriminate Hb|].
  rewrite H. cbn. now rewrite insert_singleton.
Defined.

(** ** The token page shown by [login] *)

Lemma str_app_nil_r (s : string) : (s ++ "")%string = s.
Proof. induction s as [|c s IH]; [reflexivity|]. now rewrite str_app_cons, IH. Qed.

Lemma str_length_app (x y : string) :
  String.length (x ++ y) = (String.length x + String.length y)%nat.
Proof. induction x as [|c x IH]; [reflexivity|]. rewrite str_app_cons. cbn. now rewrite IH. Qed.

Lemma first_slash_unique (x y x' y' : string) :
  str_forall not_slash x = true -> str_forall not_slash x' = true ->
  (x ++ String "/" y = x' ++ String "/" y')%string -> x = x' /\ y = y'.
Proof.
  revert x'. induction x as [|a x IH]; intros [|a' x'] Hx Hx' E.
  - injection E as E. auto.
  - injection E as <- _. discriminate Hx'.
  - injection E as -> _. discriminate Hx.
  - cbn in Hx, Hx'. apply andb_prop in Hx as [_ Hx]. apply andb_prop in Hx' as [_ Hx'].
    injection E as <- E. destruct (IH x' Hx Hx' E) as [-> ->]. auto.
Qed.

(** A prefix without [/] is copied unchanged by the scan for a pattern
    starting with [/]. *)
Lemma py_replace_scan_no_slash (old' new d t : string) (fuel : nat) :
  str_forall not_slash d = true -> (String.length d <= fuel)%nat ->
  py_replace_scan fuel (String "/" old') new (d ++ t) =
  (d ++ py_replace_scan (fuel - String.length d) (String "/" old') new t)%string.
Proof.
  revert fuel. induction d as [|c d IH]; intros fuel Hd Hlen.
  - rewrite str_app_nil, str_app_nil, Nat.sub_0_r. reflexivity.
  - destruct fuel as [|fuel]; [cbn in Hlen; lia|].
    cbn in Hd. apply andb_prop in Hd as [Hc Hd].
    rewrite !str_app_cons. cbn [py_replace_scan str_startswith].
    replace (Ascii.eqb "/"%char c) with false
      by (unfold not_slash in Hc; rewrite Ascii.eqb_sym; now destruct (Ascii.eqb c "/"%char)).
    cbn [andb]. rewrite IH by (cbn in Hlen; lia || assumption). reflexivity.
Qed.

(** X14. For an Enterprise domain without [/], [login] shows the token
    page "https://<domain>/settings/tokens": removing "/api/v3" from the
    API URL gives back the host URL. For github.com it shows
    "https://api.github.com/settings/tokens". *)
Theorem login_token_page_domain (domain : string) :
  str_forall not_slash domain = true ->
  login_token_page (login_base_url true domain) = ("https://" ++ domain ++ "/settings/tokens")%string /\
  login_token_page (login_base_url false domain) = "https://api.github.com/settings/tokens".
Proof.
  intros Hd. split; [|reflexivity].
  unfold login_token_page, login_base_url, py_replace. cbn [negb].
  replace (String.eqb "/api/v3" "") with false by reflexivity.
  change ("https://" ++ domain ++ "/api/v3")%string
    with ("https:" ++ String "/" (String "/" (domain ++ "/api/v3")))%string.
  rewrite py_replace_scan_no_slash by (reflexivity || (rewrite str_length_app; cbn; lia)).
  match goal with
  | |- context [py_replace_scan ?f _ _ _] =>
      replace f with (S (S (String.length domain + 7)))
        by (rewrite str_length_app; cbn [String.length];
            rewrite str_length_app; cbn [String.length]; lia)
  end.
  cbn [py_replace_scan].
  replace (str_startswith "/api/v3" (String "/" (String "/" (domain ++ "/api/v3"))))
    with false by reflexivity.
  replace (str_startswith "/api/v3" (String "/" (domain ++ "/api/v3"))) with false.
  2: { symmetry.
       change (str_startswith "/api/v3" (String "/" (domain ++ "/api/v3")))
         with (Ascii.eqb "/"%char "/"%char && str_startswith "api/v3" (domain ++ "/api/v3")).
       destruct (str_startswith "api/v3" (domain ++ "/api/v3")) eqn:E; [|reflexivity].
       apply startswith_app_iff in E as (post & E).
       change ("api/v3" ++ post)%string with ("api" ++ String "/" ("v3" ++ post))%string in E.
       apply first_slash_unique in E as [_ E]; [discriminate E|exact Hd|reflexivity]. }
  rewrite py_replace_scan_no_slash by (exact Hd || lia).
  replace (String.length domain + 7 - String.length domain)%nat with 7%nat by lia.
  cbn. rewrite str_app_nil_r. reflexivity.
Qed.

Lemma login_token_page_domain_witness :
  login_token_page (login_base_url true "github.acme.com") = "https://github.acme.com/settings/tokens".
Proof. exact (proj1 (login_token_page_domain "github.acme.com" eq_refl)). Defined.

(** ** Linking an issue in [create] *)

Lemma digit_splits_sound (s d r : string) :
  In (d, r) (digit_splits s) ->
  s = (d ++ r)%string /\ d <> "" /\ str_forall is_digit d = true.
Proof.
  revert d r. induction s as [|c s IH]; intros d r Hin; cbn in Hin; [contradiction|].
  destruct (is_digit c) eqn:Hc; [|contradiction].
  apply in_app_or in Hin as [Hin|[Hin|[]]].
  - apply in_map_iff in Hin as ([d' r'] & E & Hin). cbn in E. injection E as <- <-.
    destruct (IH d' r' Hin) as (-> & _ & Hd). rewrite str_app_cons. cbn [str_forall].
    rewrite Hc, Hd. split; [reflexivity|]. split; [discriminate|reflexivity].
  - injection Hin as <- <-. cbn. rewrite Hc. split; [reflexivity|]. split; [discriminate|reflexivity].
Qed.

Lemma digit_splits_head (d r : string) :
  d <> "" -> str_forall is_digit d = true ->
  match r with String c _ => is_digit c = false | EmptyString => True end ->
  exists rest, digit_splits (d ++ r) = (d, r) :: rest.
Proof.
  intros Hne Hd Hr. induction d as [|a d IH]; [contradiction|].
  cbn in Hd. apply andb_prop in Hd as [Ha Hd].
  rewrite str_app_cons. cbn [digit_splits]. rewrite Ha. destruct d as [|b d].
  - rewrite str_app_nil.
    destruct r as [|c r']; cbn [digit_splits]; [|rewrite Hr]; cbn; eexists; reflexivity.
  - destruct (IH ltac:(discriminate) Hd) as (rest & E). rewrite E. cbn. eexists. reflexivity.
Qed.

Lemma str_drop_app (p s : string) : str_drop (String.length p) (p ++ s) = s.
Proof. induction p as [|c p IH]; [reflexivity|]. rewrite str_app_cons. exact IH. Qed.

Lemma match_issue_at_sound (x g1 g2 d : string) :
  match_issue_at x = Some (g1, g2, d) ->
  exists r, x = String "/" (g1 ++ String "/" (g2 ++ String "/" ("issues/" ++ d ++ r))) /\
    str_forall is_word g1 = true /\ str_forall is_word g2 = true /\
    d <> "" /\ str_forall is_digit d = true.
Proof.
  destruct x as [|c x]; cbn [match_issue_at]; [discriminate|].
  destruct (Ascii.eqb c "/"%char) eqn:Hc; [|discriminate]. apply Ascii.eqb_eq in Hc as ->.
  intros ([w1 r1] & Hin1 & H1)%first_some_sound. cbn [fst snd] in H1.
  destruct (word_splits_sound _ _ _ Hin1) as (-> & _ & Hw1).
  destruct r1 as [|d0 r2]; [discriminate|].
  destruct (Ascii.eqb d0 "/"%char) eqn:Hd; [|discriminate]. apply Ascii.eqb_eq in Hd as ->.
  apply first_some_sound in H1 as ([w2 r3] & Hin2 & H2). cbn [fst snd] in H2.
  destruct (str_startswith "/issues/" r3) eqn:Hs; [|discriminate].
  apply startswith_app_iff in Hs as (post & ->).
  apply first_some_sound in H2 as ([w3 r4] & Hin3 & H3). cbn [fst snd] in H3.
  injection H3 as <- <- <-.
  change (str_drop 8 ("/issues/" ++ post))
    with (str_drop (String.length "/issues/") ("/issues/" ++ post)) in Hin3.
  rewrite str_drop_app in Hin3.
  destruct (digit_splits_sound _ _ _ Hin3) as (-> & Hne3 & Hw3).
  destruct (word_splits_sound _ _ _ Hin2) as (-> & _ & Hw2).
  exists r4. auto.
Qed.

Lemma match_issue_at_complete (org repo digits rest : string) :
  org <> "" -> str_forall is_word org = true -> repo <> "" -> str_forall is_word repo = true ->
  digits <> "" -> str_forall is_digit digits = true ->
  match rest with String c _ => is_digit c = false | EmptyString => True end ->
  match_issue_at (String "/" (org ++ String "/" (repo ++ String "/" ("issues/" ++ digits ++ rest)))) =
    Some (org, repo, digits).
Proof.
  intros Hone Ho Hrne Hr Hdne Hd Hrest. cbn [match_issue_at].
  replace (Ascii.eqb "/"%char "/"%char) with true by reflexivity.
  destruct (word_splits_head org (String "/" (repo ++ String "/" ("issues/" ++ digits ++ rest)))
              Hone Ho eq_refl) as (rest1 & E1).
  rewrite E1. cbn [first_some fst snd]. rewrite Ascii.eqb_refl.
  destruct (word_splits_head repo (String "/" ("issues/" ++ digits ++ rest)) Hrne Hr eq_refl)
    as (rest2 & E2).
  rewrite E2. cbn [first_some fst snd].
  replace (str_startswith "/issues/" (String "/" ("issues/" ++ digits ++ rest))) with true
    by (symmetry; apply startswith_app_iff; exists (digits ++ rest)%string; reflexivity).
  change (str_drop 8 (String "/" ("issues/" ++ digits ++ rest)))
    with (str_drop (String.length "/issues/") ("/issues/" ++ digits ++ rest)).
  rewrite str_drop_app.
  destruct (digit_splits_head digits rest Hdne Hd Hrest) as (rest3 & E3).
  rewrite E3. reflexivity.
Qed.

Lemma re_search_issue_skip (c : Ascii.ascii) (s : string) :
  match_issue_at (String c s) = None -> re_search_issue (String c s) = re_search_issue s.
Proof. intros H. cbn [re_search_issue]. rewrite H. reflexivity. Qed.

Lemma re_search_issue_no_slash (p s : string) :
  str_forall not_slash p = true -> re_search_issue (p ++ s) = re_search_issue s.
Proof.
  induction p as [|c p IH]; intros Hp; [reflexivity|].
  cbn in Hp. apply andb_prop in Hp as [Hc Hp].
  rewrite str_app_cons, re_search_issue_skip; [exact (IH Hp)|].
  cbn [match_issue_at]. unfold not_slash in Hc.
  now destruct (Ascii.eqb c "/"%char).
Qed.

(** X15. [create] links the pull request to the issue of an ASCII URL
    "https://<host>/<org>/<repo>/issues/<digits>..." (host without [/],
    [org] and [repo] non-empty runs of letters, digits, [_] and [-], the
    digits not followed by another digit): it comments "PR Created: " and
    the pull request URL on issue number [digits] of repository
    "org/repo", whatever follows the digits. *)
Theorem create_issue_link_url (host org repo digits rest html_url : string) :
  str_forall ascii_char ("https://" ++ host ++ "/" ++ org ++ "/" ++ repo ++ "/issues/" ++ digits ++ rest)
    = true ->
  str_forall not_slash host = true ->
  org <> "" -> str_forall is_word org = true -> repo <> "" -> str_forall is_word repo = true ->
  digits <> "" -> str_forall is_digit digits = true ->
  match rest with String c _ => is_digit c = false | EmptyString => True end ->
  create_issue_link ("https://" ++ host ++ "/" ++ org ++ "/" ++ repo ++ "/issues/" ++ digits ++ rest)
    html_url =
  Some ((org ++ "/" ++ repo)%string, py_int_digits 0 digits, ("PR Created: " ++ html_url)%string).
Proof.
  intros _ Hh Hone Ho Hrne Hr Hdne Hd Hrest. unfold create_issue_link.
  change ("https://" ++ host ++ "/" ++ org ++ "/" ++ repo ++ "/issues/" ++ digits ++ rest)%string
    with ("https:" ++ String "/" (String "/" (host ++ String "/" (org ++ String "/"
            (repo ++ String "/" ("issues/" ++ digits ++ rest))))))%string.
  rewrite re_search_issue_no_slash by reflexivity.
  rewrite re_search_issue_skip by reflexivity.
  rewrite re_search_issue_skip.
  2: { destruct (match_issue_at _) as [[[g1 g2] d]|] eqn:E; [exfalso|reflexivity].
       apply match_issue_at_sound in E as (r & E & Hg1 & Hg2 & Hdne' & Hd').
       injection E as E.
       apply first_slash_unique in E as [_ E]; [|exact Hh|now apply words_not_slash].
       apply first_slash_unique in E as [_ E];
         [|now apply words_not_slash|now apply words_not_slash].
       change ("issues/" ++ d ++ r)%string with ("issues" ++ String "/" (d ++ r))%string in E.
       apply first_slash_unique in E as [_ E]; [|now apply words_not_slash|reflexivity].
       destruct d as [|c d]; [contradiction|]. injection E as <- _. discriminate Hd'. }
  rewrite re_search_issue_no_slash by exact Hh.
  cbn [re_search_issue]. rewrite match_issue_at_complete by assumption. reflexivity.
Qed.

Lemma create_issue_link_url_witness :
  create_issue_link "https://github.com/acme/widgets/issues/42#issuecomment-1" "https://github.com/acme/widgets/pull/7" =
    Some ("acme/widgets", 42, "PR Created: https://github.com/acme/widgets/pull/7").
Proof.
  exact (create_issue_link_url "github.com" "acme" "widgets" "42" "#issuecomment-1"
           "https://github.com/acme/widgets/pull/7"
           eq_refl eq_refl ltac:(discriminate) eq_refl ltac:(discriminate) eq_refl
           ltac:(discriminate) eq_refl eq_refl).
Defined.

(** ** Login, then the Slack notification of [create] *)

(** X16. After [login], [create] posts its Slack notification exactly
    when a non-empty webhook URL was given at login, and then to that URL;
    with no webhook, or an empty one, it posts nothing. *)
Theorem login_then_slack_post (old : option json) (encrypt : string -> string)
    (is_enterprise : bool) (domain token : string) (slack_webhook : option string)
    (repo_arg title html_url : string) :
  match login old encrypt is_enterprise domain token slack_webhook with
  | Some config =>
      create_slack_post config repo_arg title html_url =
        match slack_webhook with
        | Some w => if String.eqb w "" then None
                    else Some (JString w, create_slack_text repo_arg title html_url)
        | None => None
        end
  | None => False
  end.
Proof.
  unfold login, login_config_data, create_slack_post, json_lookup. cbn.
  destruct slack_webhook as [w|]; cbn; [|reflexivity].
  now destruct (String.eqb w "").
Qed.
